(** * osm_fieldwork/make_data_extract.py: data extraction clients

    A shallow embedding of [DatabaseAccess], [PostgresClient] and
    [OverpassClient] of [make_data_extract.py], with the properties of the
    query builders, the local query engine, the remote snapshot protocol and
    the Overpass adapter.

    Python values are embedded as follows: [str] is [string]; a [dict] whose
    iteration order is observed is an association list in insertion order; the
    tag mapping of a feature is a [gmap]; a raised exception is the left
    summand of [exc]; the database, the HTTP server, the zip reader, the
    geometry library, the tag cleaner, the file system with the GeoJSON
    writer and the floating point library are parameters of the sections that
    use them. *)

From Stdlib Require Import ZArith List Ascii String Strings.Byte Lia Bool.
From Stdlib Require Import DecimalString.
From stdpp Require Import base option gmap strings list.
Import ListNotations.

Open Scope string_scope.
Open Scope list_scope.

(** ** Exceptions *)

Inductive exn : Type :=
| KeyError (key : string)
| IndexError
| TypeError
| ValueError
| AttributeError (attr : string)
| UnboundLocalError (var : string)
| ConnectionError
| BadZipFile
| DatabaseError (msg : string)
| OSError (msg : string).

Definition exc (A : Type) : Type := exn + A.

Definition ret {A} (a : A) : exc A := inr a.
Definition raise {A} (e : exn) : exc A := inl e.

Definition bind {A B} (m : exc A) (k : A -> exc B) : exc B :=
  match m with
  | inl e => inl e
  | inr a => k a
  end.

Notation "'do' x <~ m ; k" := (bind m (fun x => k))
  (at level 10, x name, m at level 100, k at level 200).

Definition of_option {A} (e : exn) (o : option A) : exc A :=
  match o with
  | Some a => ret a
  | None => raise e
  end.

(** ** Python [str] operations used by the module *)

Module Py.

Definition dquote : string := String "034"%char EmptyString.

Fixpoint take (n : nat) (s : string) : string :=
  match n, s with
  | S n', String c s' => String c (take n' s')
  | _, _ => EmptyString
  end.

Fixpoint drop (n : nat) (s : string) : string :=
  match n, s with
  | S n', String _ s' => drop n' s'
  | _, _ => s
  end.

(** [s[:-n]] for a literal [n > 0] *)
Definition slice_to_neg (n : nat) (s : string) : string :=
  take (String.length s - n) s.

(** [s[a:-b]] for literals [a >= 0], [b > 0] *)
Definition slice_from_to_neg (a b : nat) (s : string) : string :=
  take (String.length s - b - a) (drop a s).

(** [s.find(sub)], [None] standing for [-1] *)
Fixpoint find_from (sub s : string) (i : nat) : option nat :=
  if String.prefix sub s then Some i
  else match s with
       | EmptyString => None
       | String _ s' => find_from sub s' (S i)
       end.

Definition find (sub s : string) : option nat := find_from sub s 0.

(** [s.find(sub) > 0] *)
Definition find_pos (sub s : string) : bool :=
  match find sub s with
  | Some (S _) => true
  | _ => false
  end.

(** [sub in s] *)
Definition contains (sub s : string) : bool :=
  match find sub s with
  | Some _ => true
  | None => false
  end.

(** [s.endswith(suf)] *)
Definition endswith (suf s : string) : bool :=
  String.eqb (drop (String.length s - String.length suf) s) suf
  && (String.length suf <=? String.length s)%nat.

(** [s.replace(old, new)] for a non-empty [old]: every occurrence, scanning
    from the left; [skip] counts the characters of a match still to pass. *)
Fixpoint replace_go (old new : string) (skip : nat) (s : string) : string :=
  match s with
  | EmptyString => EmptyString
  | String c s' =>
      match skip with
      | S k => replace_go old new k s'
      | O =>
          if String.prefix old s
          then new +:+ replace_go old new (String.length old - 1) s'
          else String c (replace_go old new 0 s')
      end
  end.

Definition replace (old new s : string) : string := replace_go old new 0 s.

(** [s.split(" ")]: the maximal pieces between single spaces, empty pieces
    kept; [cur] is the piece being read. *)
Fixpoint split_go (cur : string) (s : string) : list string :=
  match s with
  | EmptyString => [cur]
  | String c s' =>
      if Ascii.eqb c " "%char
      then cur :: split_go EmptyString s'
      else split_go (cur +:+ String c EmptyString) s'
  end.

Definition split_space (s : string) : list string := split_go EmptyString s.

(** [sep.join(l)] *)
Fixpoint join (sep : string) (l : list string) : string :=
  match l with
  | [] => EmptyString
  | [x] => x
  | x :: l' => x +:+ sep +:+ join sep l'
  end.

End Py.

(** ** The data model of a category (the YAML file read by [yaml.load])

    [data['select']] is a mapping that may hold a [tags] list and one scalar
    per listed tag; [data['from']] is the list of tables; [data['where']] holds
    [tags], a list of mappings of which the first is read.  A key that is
    absent from the file is [None] here and raises [KeyError] when read.
    The record holds the files whose entries, where present, have these
    shapes; an entry that is null or of another type is not one of its
    values. *)

Record Select := {
  sel_tags : option (list string);
  sel_fields : gmap string string
}.

Record Where := {
  where_tags : option (list (list (string * string)))
}.

Record DataModel := {
  dm_select : option Select;
  dm_from : option (list string);
  dm_where : option Where
}.

(** [data['where']['tags'][0]] *)
Definition where_tags0 (data : DataModel) : exc (list (string * string)) :=
  do w <~ of_option (KeyError "where") (dm_where data) ;
  do ts <~ of_option (KeyError "tags") (where_tags w) ;
  of_option IndexError (head ts).

(** ** JSON documents *)

#[warnings="-register-all"]
Inductive json : Type :=
| JNull
| JBool (b : bool)
| JNum (literal : string)
| JStr (s : string)
| JArr (items : list json)
| JObj (members : list (string * json)).

(** [d[k]] on the members of an object *)
Fixpoint obj_get (k : string) (m : list (string * json)) : option json :=
  match m with
  | [] => None
  | (k', v) :: m' => if String.eqb k k' then Some v else obj_get k m'
  end.

(** [d[k] = v] on the members of an object: an existing key keeps its place *)
Fixpoint obj_set (k : string) (v : json) (m : list (string * json))
  : list (string * json) :=
  match m with
  | [] => [(k, v)]
  | (k', v') :: m' =>
      if String.eqb k k' then (k, v) :: m' else (k', v') :: obj_set k v m'
  end.

Definition json_get (k : string) (j : json) : option json :=
  match j with
  | JObj m => obj_get k m
  | _ => None
  end.

(** ** DatabaseAccess.createJson *)

Definition not_null (value : string) : bool := String.eqb value "not null".

Fixpoint createJson_columns (tags : list (string * string))
  (columns : list (string * json)) : list (string * json) :=
  match tags with
  | [] => columns
  | (tag, value) :: tags' =>
      createJson_columns tags'
        (if not_null value then obj_set tag (JArr []) columns else columns)
  end.

Fixpoint createJson_tables (from : list string) : list json :=
  match from with
  | [] => []
  | table :: from' =>
      if String.eqb table "nodes" then JStr "point" :: createJson_tables from'
      else if String.eqb table "ways_poly"
           then JStr "polygon" :: createJson_tables from'
      else if String.eqb table "ways_line"
           then JStr "linestring" :: createJson_tables from'
      else createJson_tables from'
  end.

(** The dictionary [features] that [createJson] hands to [json.dumps]. *)
Definition createJson_features (data : DataModel) (boundary : json) : exc json :=
  do tags <~ where_tags0 data ;
  let columns := createJson_columns tags [] in
  let filters :=
    JObj [("tags", JObj [("all_geometry", JObj [("join_or", JObj columns)])])] in
  do from <~ of_option (KeyError "from") (dm_from data) ;
  let tables := createJson_tables from in
  ret (JObj [("geometry", boundary);
             ("filters", filters);
             ("geometryType", JArr tables);
             ("centroid", JStr "true")]).

(** ** DatabaseAccess.createSQL *)

Fixpoint createSQL_select_tags (fields : gmap string string)
  (tags : list string) (query : string) : exc string :=
  match tags with
  | [] => ret query
  | tag :: tags' =>
      do src <~ of_option (KeyError tag) (fields !! tag) ;
      createSQL_select_tags fields tags'
        (query +:+ " " +:+ src +:+ " AS " +:+ tag +:+ ", ")
  end.

Fixpoint createSQL_where (tags : list (string * string)) (query : string)
  : string :=
  match tags with
  | [] => query
  | (tag, value) :: tags' =>
      createSQL_where tags'
        (if not_null value
         then query +:+ "tags->>'" +:+ tag +:+ "' IS NOT NULL OR "
         else query)
  end.

(** The branch on ['tags' in select] *)
Definition createSQL_select (select : Select) (query : string) : exc string :=
  match sel_tags select with
  | Some tags =>
      do query <~ createSQL_select_tags (sel_fields select) tags query ;
      ret (query +:+ "osm_id AS id, ST_AsEWKT(ST_Centroid(geom)) ")
  | None =>
      ret (query +:+ "osm_id AS id, ST_AsEWKT(ST_Centroid(geom)), tags ")
  end.

(** One iteration of [for table in tables], returning the appended entry. *)
Definition createSQL_query (data : DataModel) (table : string) : exc string :=
  let query := "SELECT " in
  do select <~ of_option (KeyError "select") (dm_select data) ;
  do query <~ createSQL_select select query ;
  let query := query +:+ " FROM " +:+ table +:+ " " in
  do where_ <~ of_option (KeyError "where") (dm_where data) ;
  do query <~ match dm_where data with
           | Some _ =>
               let query := query +:+ " WHERE " in
               do tags <~ where_tags0 data ;
               ret (createSQL_where tags query)
           | None => ret query
           end ;
  ret (Py.slice_to_neg 4 query).

Fixpoint createSQL_loop (data : DataModel) (tables : list string)
  (sql : list string) : exc (list string) :=
  match tables with
  | [] => ret sql
  | table :: tables' =>
      do q <~ createSQL_query data table ;
      createSQL_loop data tables' (sql ++ [q])
  end.

Definition createSQL (data : DataModel) : exc (list string) :=
  do tables <~ of_option (KeyError "from") (dm_from data) ;
  createSQL_loop data tables [].

(** ** Rows, geometries and features *)

Inductive scalar : Type :=
| SNone
| SInt (z : Z)
| SStr (s : string).

(** A column of a result row: a scalar, or the [tags] mapping. *)
Inductive column : Type :=
| Col (v : scalar)
| ColTags (tags : gmap string scalar).

Definition row : Type := list column.

(** [round(coord, 6)] on the floats: [geojson] rounds every coordinate of a
    geometry it builds to its default precision of 6 decimals. *)
Class Round6 (float : Type) := round6 : float -> float.

Section Geometry.
Context {float : Type} {float_round : Round6 float}.

Inductive geometry : Type :=
| Point (coordinates : list float)
| LineString (coordinates : list (list float))
| Polygon (rings : list (list (list float))).

Definition is_Point (g : option geometry) : bool :=
  match g with
  | Some (Point _) => true
  | _ => false
  end.

(** [geojson.Point(coordinates)]: the coordinates are cleaned, each one
    rounded to 6 decimals. *)
Definition geojson_Point (coordinates : list float) : geometry :=
  Point (map round6 coordinates).

(** [geojson.Feature]: the member [geometry] is a geometry or [None]
    ([null] in the document). *)
Record Feature := {
  f_geometry : option geometry;
  f_properties : gmap string scalar
}.

(** [Feature(geometry=center, ...)] on a [shapely] point with the given
    coordinates, none for [POINT EMPTY]: the constructor keeps
    [to_instance(geometry) if geometry else None], an empty [shapely]
    geometry is falsy, and any other point goes through its
    [__geo_interface__] to [geojson.Point]. *)
Definition geometry_of_shapely_point (center : list float) : option geometry :=
  match center with
  | [] => None
  | _ :: _ => Some (geojson_Point center)
  end.

(** What [getFeatures] passes to the tag cleaner: a [FeatureCollection] on
    the local path, the bytes of [Export.geojson] on the remote path. *)
Inductive collection : Type :=
| FeatureCollection (features : list Feature)
| RawGeoJSON (content : list byte).

End Geometry.

Arguments geometry : clear implicits.
Arguments Feature : clear implicits.
Arguments collection : clear implicits.
Arguments geojson_Point {float float_round} coordinates.
Arguments geometry_of_shapely_point {float float_round} center.

(** ** The world the clients act on *)

(** What a run does to the outside, in order.  [EvOpen filespec] is
    [open(filespec, "w")] having returned: the file exists and is empty.
    [EvDump filespec text] is [dump(new, jsonfile)] having written [text] to
    that file, all of the document or the part written before it raised. *)
Inductive event : Type :=
| EvExecute (sql : string)
| EvPost (url body : string)
| EvGet (url : string)
| EvSleep (seconds : nat)
| EvExtract (member path : string)
| EvOpen (filespec : string)
| EvDump (filespec text : string).

(** The answer to a GET: the fields read from its JSON body ([status], and
    [result.download_url] when present) and its raw body. *)
Record Response := {
  status : string;
  download_url : option string;
  content : list byte
}.

(** A deterministic server as this client sees it: the [task_id] field of the
    answer to the POST (if any), and the answer to the GET number [k] of the
    session, counted from 0. *)
Record Server := {
  post : string -> string -> option string;
  get : nat -> string -> Response
}.

(** The attributes of a [DatabaseAccess] object: [dbshell] is [None] ([false])
    or a connection; [session] and [url] exist only on a client built for
    [underpass].  The attribute [dbcursor] is part of the world below, with the
    state of the database behind it: a client can hold a connection and no
    cursor. *)
Record DatabaseAccess := {
  dbshell : bool;
  session : bool;
  url : option string
}.

(** Result of an effectful run: [Running] when the fuel of the poll loop is
    spent before the loop has left. *)
Inductive result (A : Type) : Type :=
| Ok (a : A)
| Raise (e : exn)
| Running.

Arguments Ok {A} a.
Arguments Raise {A} e.
Arguments Running {A}.

(** What [psycopg2.connect] returns, as [__init__] uses it: [conn_cursor] is
    what [autocommit = True] followed by [cursor()] gives on it, a cursor or
    the exception raised. *)
Record connection {DB : Type} := {
  conn_cursor : exc DB
}.

Arguments connection : clear implicits.

Section Clients.
Context {float : Type} {float_round : Round6 float}.
Variable float_of_str : string -> option float.
Variable repr_float : float -> string.

Context {DB : Type}.
Variable db_connect : string -> exc (connection DB).
Variable db_execute : string -> DB -> exc DB.
Variable db_fetchall : DB -> exc (list row).

Variable server : Server.
Variable ZipFile : list byte -> option (gmap string (list byte)).
Variable json_dumps : json -> string.

(** [w_cursor] is [self.dbcursor]: [None], or a cursor on a database in the
    given state; [w_gets] counts the GET requests sent so far. *)
Record world := {
  w_cursor : option DB;
  w_gets : nat;
  w_trace : list event
}.

Definition M (A : Type) : Type := world -> result A * world.

Definition mret {A} (a : A) : M A := fun w => (Ok a, w).
Definition mraise {A} (e : exn) : M A := fun w => (Raise e, w).

Definition mbind {A B} (m : M A) (k : A -> M B) : M B :=
  fun w =>
    match m w with
    | (Ok a, w') => k a w'
    | (Raise e, w') => (Raise e, w')
    | (Running, w') => (Running, w')
    end.

Definition lift {A} (m : exc A) : M A :=
  match m with
  | inl e => mraise e
  | inr a => mret a
  end.

Definition emit (e : event) : M unit :=
  fun w => (Ok tt, {| w_cursor := w_cursor w; w_gets := w_gets w;
                      w_trace := w_trace w ++ [e] |}).

Notation "'run' x <~ m ; k" := (mbind m (fun x => k))
  (at level 10, x name, m at level 100, k at level 200).
Notation "'exec' m ; k" := (mbind m (fun _ => k))
  (at level 10, m at level 100, k at level 200).

(** *** DatabaseAccess.__init__ *)

Definition init (dbhost dbname : option string)
  : exc (DatabaseAccess * option DB) :=
  if match dbname with Some n => String.eqb n "underpass" | None => false end
  then ret ({| dbshell := false; session := true;
               url := Some "https://raw-data-api0.hotosm.org/v1" |}, None)
  else
    do name <~ of_option TypeError dbname ;
    let connect :=
      match dbhost with
      | None => "dbname=" +:+ name
      | Some host =>
          if String.eqb host "localhost" then "dbname=" +:+ name
          else "host=" +:+ host +:+ " dbname=" +:+ name
      end in
    match db_connect connect with
    | inr conn =>
        match conn_cursor conn with
        | inr db =>
            ret ({| dbshell := true; session := false; url := None |}, Some db)
        | inl _ =>
            ret ({| dbshell := true; session := false; url := None |}, None)
        end
    | inl _ =>
        ret ({| dbshell := false; session := false; url := None |}, None)
    end.

(** *** DatabaseAccess.queryLocal *)

(** [self.dbcursor.execute(sql)] *)
Definition cursor_execute (sql : string) : M unit :=
  fun w =>
    match w_cursor w with
    | Some db =>
        let tr := w_trace w ++ [EvExecute sql] in
        match db_execute sql db with
        | inr db' =>
            (Ok tt,
             {| w_cursor := Some db'; w_gets := w_gets w; w_trace := tr |})
        | inl e =>
            (Raise e,
             {| w_cursor := Some db; w_gets := w_gets w; w_trace := tr |})
        end
    | None => (Raise (AttributeError "execute"), w)
    end.

(** [self.dbcursor.fetchall()] *)
Definition cursor_fetchall : M (list row) :=
  fun w =>
    match w_cursor w with
    | Some db =>
        match db_fetchall db with
        | inr rows => (Ok rows, w)
        | inl e => (Raise e, w)
        end
    | None => (Raise (AttributeError "fetchall"), w)
    end.

Definition view_sql (view table wkt : string) : string :=
  "DROP VIEW IF EXISTS " +:+ view +:+ ";CREATE TEMP VIEW " +:+ view
  +:+ " AS SELECT * FROM " +:+ table
  +:+ " WHERE ST_CONTAINS(ST_GeomFromEWKT('SRID=4326;" +:+ wkt
  +:+ "'), geom)".

Definition rewrite_query (query : string) : string :=
  if Py.find_pos " ways_poly " query
  then Py.replace "ways_poly" "ways_view" query
  else if Py.find_pos " nodes " query
       then Py.replace "nodes" "nodes_view" query
       else query.

(** The body of [for item in result], returning the appended feature. *)
Definition row_feature (item : row) : exc (Feature float) :=
  do item1 <~ of_option IndexError (item !! 1%nat) ;
  do ewkt <~ match item1 with
             | Col (SStr s) => ret s
             | _ => raise TypeError
             end ;
  let gps := Py.split_space (Py.slice_from_to_neg 16 1 ewkt) in
  do gps0 <~ of_option IndexError (gps !! 0%nat) ;
  do x <~ of_option ValueError (float_of_str gps0) ;
  do gps1 <~ of_option IndexError (gps !! 1%nat) ;
  do y <~ of_option ValueError (float_of_str gps1) ;
  let poi := geojson_Point [x; y] in
  do item2 <~ of_option IndexError (item !! 2%nat) ;
  do tags <~ match item2 with
             | ColTags t => ret t
             | Col _ => raise TypeError
             end ;
  let tags := <["id" := SStr ewkt]> tags in
  let tags :=
    match tags !! "name" with
    | Some name => <["label" := name]> (<["title" := name]> tags)
    | None => <["label" := SNone]> (<["title" := SNone]> tags)
    end in
  ret {| f_geometry := Some poi; f_properties := tags |}.

Fixpoint row_features (rows : list row) (features : list (Feature float))
  : exc (list (Feature float)) :=
  match rows with
  | [] => ret features
  | item :: rows' =>
      do f <~ row_feature item ;
      row_features rows' (features ++ [f])
  end.

Definition queryLocal (query wkt : string) : M (list (Feature float)) :=
  exec cursor_execute (view_sql "ways_view" "ways_poly" wkt) ;
  exec cursor_execute (view_sql "nodes_view" "nodes" wkt) ;
  let query := rewrite_query query in
  exec cursor_execute query ;
  run rows <~ cursor_fetchall ;
  lift (row_features rows []).

(** *** DatabaseAccess.queryRemote *)

(** [self.session.get(url, headers=self.headers)] *)
Definition session_get (url : string) : M Response :=
  fun w =>
    (Ok (get server (w_gets w) url),
     {| w_cursor := w_cursor w; w_gets := S (w_gets w);
        w_trace := w_trace w ++ [EvGet url] |}).

(** [self.session.post(url, data=query, headers=self.headers).json()['task_id']] *)
Definition session_post_task_id (url query : string) : M string :=
  exec emit (EvPost url query) ;
  lift (of_option (KeyError "task_id") (post server url query)).

(** The [while True] loop; [fuel] bounds the number of iterations run. *)
Fixpoint poll (fuel : nat) (newurl : string) : M Response :=
  match fuel with
  | O => fun w => (Running, w)
  | S fuel' =>
      run result <~ session_get newurl ;
      if String.eqb (status result) "PENDING"
      then exec emit (EvSleep 1) ; poll fuel' newurl
      else if String.eqb (status result) "SUCCESS"
           then mret result
           else poll fuel' newurl
  end.

Definition queryRemote (self : DatabaseAccess) (fuel : nat) (query : string)
  : M (list byte) :=
  run base <~ lift (of_option (AttributeError "url") (url self)) ;
  let url := base +:+ "/snapshot/" in
  run task_id <~ (if session self then session_post_task_id url query
                  else mraise (AttributeError "session")) ;
  let newurl := base +:+ "/tasks/status/" +:+ task_id in
  run result <~ poll fuel newurl ;
  run zip <~ lift (of_option (KeyError "download_url") (download_url result)) ;
  run result <~ session_get zip ;
  run zfp <~ lift (of_option BadZipFile (ZipFile (content result))) ;
  run data <~ lift (of_option (KeyError "Export.geojson")
                      (zfp !! "Export.geojson")) ;
  exec emit (EvExtract "Export.geojson" "/tmp/") ;
  mret data.

(** *** PostgresClient.getFeatures, from [if self.dbshell:] to the
    collection handed to the tag cleaner *)

Definition createJson (data : DataModel) (boundary : json) : exc string :=
  do features <~ createJson_features data boundary ;
  ret (json_dumps features).

(** [for query in sql: result = self.queryLocal(query, wkt)], [result]
    being unbound ([None]) until the first iteration has run. *)
Fixpoint query_loop (sql : list string) (wkt : string)
  (result : option (list (Feature float)))
  : M (option (list (Feature float))) :=
  match sql with
  | [] => mret result
  | query :: sql' =>
      run r <~ queryLocal query wkt ;
      query_loop sql' wkt (Some r)
  end.

Definition PostgresClient_collection (self : DatabaseAccess) (fuel : nat)
  (data : DataModel) (poly : json) (wkt : string) : M (collection float) :=
  if dbshell self then
    run sql <~ lift (createSQL data) ;
    run result <~ query_loop sql wkt None ;
    run result <~ lift (of_option (UnboundLocalError "result") result) ;
    mret (FeatureCollection result)
  else
    run request <~ lift (createJson data poly) ;
    run collection <~ queryRemote self fuel request ;
    mret (RawGeoJSON collection).

(** *** OverpassClient.getFeatures *)

(** [wkt.exterior.coords.xy] on the ring of [(x, y)] positions *)
Definition coords_xy (ring : list (float * float))
  : list float * list float :=
  (map fst ring, map snd ring).

(** The [while index < len(lat)] loop; [fuel] bounds its iterations and
    [None] says that it was spent. *)
Fixpoint poly_loop (fuel : nat) (lat lon : list float) (index : nat)
  (poly : string) : option (exc string) :=
  if (index <? length lat)%nat then
    match fuel with
    | O => None
    | S fuel' =>
        match lon !! index, lat !! index with
        | Some lo, Some la =>
            poly_loop fuel' lat lon (S index)
              (poly +:+ repr_float lo +:+ " " +:+ repr_float la +:+ " ")
        | _, _ => Some (raise IndexError)
        end
    end
  else Some (ret poly).

Definition overpass_query (ring : list (float * float))
  : option (exc string) :=
  let poly := EmptyString in
  let '(lat, lon) := coords_xy ring in
  match poly_loop (length lat) lat lon 0 poly with
  | Some (inr poly) =>
      Some (ret ("[out:json];way[" +:+ Py.dquote +:+ "building" +:+ Py.dquote
                 +:+ "](poly:" +:+ Py.dquote +:+ Py.slice_to_neg 1 poly
                 +:+ Py.dquote +:+ ");(._;>;);out body geom;"))
  | Some (inl e) => Some (raise e)
  | None => None
  end.

(** A way of the Overpass result: the [lat]/[lon] of the entries of
    [attributes['geometry']], and [tags]. *)
Record coords := { lat : float; lon : float }.

Record Way := {
  way_geometry : list coords;
  way_tags : gmap string scalar
}.

(** [shapely.centroid(Polygon(poly))]: the coordinates of the centroid
    point, none when it is [POINT EMPTY], or the exception raised for a ring
    that is rejected. *)
Variable polygon_centroid : list (list float) -> exc (list float).

Definition way_feature (way : Way) : exc (Feature float) :=
  let poly := map (fun c => [lon c; lat c]) (way_geometry way) in
  do center <~ polygon_centroid poly ;
  ret {| f_geometry := geometry_of_shapely_point center;
         f_properties := way_tags way |}.

Fixpoint way_features (ways : list Way) (features : list (Feature float))
  : exc (list (Feature float)) :=
  match ways with
  | [] => ret features
  | way :: ways' =>
      do f <~ way_feature way ;
      way_features ways' (features ++ [f])
  end.

(** *** OverpassClient.getFeatures, from the query to the collection handed
    to the tag cleaner *)

(** [self.overpass.query(query).ways] *)
Variable overpass : string -> exc (list Way).

Definition OverpassClient_collection (ring : list (float * float))
  : option (exc (collection float)) :=
  match overpass_query ring with
  | Some query =>
      Some (do query <~ query ;
            do ways <~ overpass query ;
            do features <~ way_features ways [] ;
            ret (FeatureCollection features))
  | None => None
  end.

(** *** The end of both [getFeatures]: the collection goes through the tag
    cleaner and the result is written to [filespec] *)

Variable Cleaned : Type.

(** [FilterData().parse(...)] followed by [cleanData(collection)] *)
Variable cleanData : string -> collection float -> exc Cleaned.

(** Whether [open(filespec, "w")] returns a file or raises. *)
Variable open_w : string -> exc unit.

(** [dump(new, jsonfile)] writes the document piece by piece: the text it
    has written, and the exception that stopped it, if one did. *)
Variable dump : Cleaned -> string * option exn.

(** [jsonfile = open(filespec, "w")] then [dump(new, jsonfile)], the two
    statements before [return new] in both [getFeatures]. *)
Definition open_and_dump (filespec : string) (new : Cleaned) : M unit :=
  exec lift (open_w filespec) ;
  exec emit (EvOpen filespec) ;
  let '(text, stopped) := dump new in
  exec emit (EvDump filespec text) ;
  match stopped with
  | Some e => mraise e
  | None => mret tt
  end.

Definition PostgresClient_getFeatures (self : DatabaseAccess) (fuel : nat)
  (data : DataModel) (poly : json) (wkt filespec category : string)
  : M Cleaned :=
  run collection <~ PostgresClient_collection self fuel data poly wkt ;
  run new <~ lift (cleanData category collection) ;
  exec open_and_dump filespec new ;
  mret new.

Definition OverpassClient_getFeatures (ring : list (float * float))
  (filespec category : string) : option (M Cleaned) :=
  match OverpassClient_collection ring with
  | Some collection =>
      Some (run collection <~ lift collection ;
            run new <~ lift (cleanData category collection) ;
            exec open_and_dump filespec new ;
            mret new)
  | None => None
  end.

End Clients.

Arguments world : clear implicits.
Arguments M : clear implicits.
Arguments coords : clear implicits.
Arguments Way : clear implicits.

(** * Reference formulations and concrete collaborators *)

(** ** Formulations that do not depend on a collaborator *)

(** Every tag listed under [select.tags] has its entry in [select]. *)
Definition select_ok (select : Select) : bool :=
  match sel_tags select with
  | Some tags =>
      forallb (fun tag => bool_decide (is_Some (sel_fields select !! tag))) tags
  | None => true
  end.

(** No tag of the mapping carries the predicate ["not null"]. *)
Definition no_required_tag (tags : list (string * string)) : bool :=
  forallb (fun tv => negb (not_null (snd tv))) tags.

(** The vocabulary of [geometryType], as the filter document is described:
    relation tables, like any other name, have no entry. *)
Definition geometry_type (table : string) : option string :=
  if String.eqb table "nodes" then Some "point"
  else if String.eqb table "ways_poly" then Some "polygon"
  else if String.eqb table "ways_line" then Some "linestring"
  else None.

(** The required tags whose predicate is ["not null"], each with an empty
    constraint list. *)
Definition join_or (tags : list (string * string)) : list (string * json) :=
  map (fun tv => (fst tv, JArr [])) (List.filter (fun tv => not_null (snd tv)) tags).

Fixpoint json_path (path : list string) (j : json) : option json :=
  match path with
  | [] => Some j
  | k :: path' =>
      match json_get k j with
      | Some j' => json_path path' j'
      | None => None
      end
  end.

(** [json.dumps] with its default separators, for documents whose strings
    hold no character that needs an escape. *)
Fixpoint dumps_plain (j : json) : string :=
  match j with
  | JNull => "null"
  | JBool true => "true"
  | JBool false => "false"
  | JNum literal => literal
  | JStr s => Py.dquote +:+ s +:+ Py.dquote
  | JArr items => "[" +:+ Py.join ", " (map dumps_plain items) +:+ "]"
  | JObj members =>
      "{" +:+ Py.join ", "
                (map (fun '(k, v) =>
                        Py.dquote +:+ k +:+ Py.dquote +:+ ": " +:+ dumps_plain v)
                   members)
      +:+ "}"
  end.

(** What one pass of the loop adds to the trace on the answer [r]. *)
Definition pass_events (newurl : string) (r : Response) : list event :=
  if String.eqb (status r) "PENDING" then [EvGet newurl; EvSleep 1]
  else [EvGet newurl].

(** [newurl] of [queryRemote] *)
Definition status_url (base task_id : string) : string :=
  base +:+ "/tasks/status/" +:+ task_id.

(** The query around the text of the [poly] filter *)
Definition overpass_ql (poly : string) : string :=
  "[out:json];way[" +:+ Py.dquote +:+ "building" +:+ Py.dquote
  +:+ "](poly:" +:+ Py.dquote +:+ poly +:+ Py.dquote
  +:+ ");(._;>;);out body geom;".

Definition no_execute (e : event) : bool :=
  match e with
  | EvExecute _ => false
  | _ => true
  end.

(** The conditions of the WHERE clause: one for each tag whose predicate is
    ["not null"], in the order of the mapping. *)
Definition conditions (tags : list (string * string)) : list string :=
  map (fun tv => "tags->>'" +:+ fst tv +:+ "' IS NOT NULL")
    (List.filter (fun tv => not_null (snd tv)) tags).

(** What [createSQL] needs of a data model once [from] names a table: a
    [select] entry whose listed tags all have their entry, and a first
    mapping under [where.tags]. *)
Definition query_ok (data : DataModel) : Prop :=
  (exists select, dm_select data = Some select /\ select_ok select = true)
  /\ exists tags, where_tags0 data = inr tags.

(** The text holds no space. *)
Fixpoint no_space (s : string) : bool :=
  match s with
  | EmptyString => true
  | String c s' => negb (Ascii.eqb c " "%char) && no_space s'
  end.

(** The statements one call of [queryLocal] sends to the cursor: the two views
    are dropped and created again, then the rewritten query is run. *)
Definition local_events (wkt query : string) : list event :=
  [EvExecute (view_sql "ways_view" "ways_poly" wkt);
   EvExecute (view_sql "nodes_view" "nodes" wkt);
   EvExecute (rewrite_query query)].

(** The event neither opens nor writes an output file. *)
Definition no_dump (e : event) : bool :=
  match e with
  | EvOpen _ | EvDump _ _ => false
  | _ => true
  end.

Definition is_sleep (e : event) : bool :=
  match e with
  | EvSleep _ => true
  | _ => false
  end.

Definition is_get (e : event) : bool :=
  match e with
  | EvGet _ => true
  | _ => false
  end.

(** ** Formulations over the collaborators *)

Section Formulations.
Context {float : Type} {float_round : Round6 float}.
Variable float_of_str : string -> option float.
Variable repr_float : float -> string.
Context {DB : Type}.
Variable db_execute : string -> DB -> exc DB.
Variable db_fetchall : DB -> exc (list row).
Variable server : Server.
Variable ZipFile : list byte -> option (gmap string (list byte)).
Variable json_dumps : json -> string.
Variable polygon_centroid : list (list float) -> exc (list float).
Implicit Types w : world DB.

(** The world after [n] passes that did not leave the loop. *)
Definition after_passes (newurl : string) (n : nat) w : world DB :=
  {| w_cursor := w_cursor w;
     w_gets := w_gets w + n;
     w_trace := w_trace w
                ++ concat (map (fun k => pass_events newurl (get server k newurl))
                             (seq (w_gets w) n)) |}.

(** What the loop appends for the ring positions [(x, y)]: for each, the
    [repr] of [y], a space, the [repr] of [x], a space. *)
Fixpoint poly_tokens (ring : list (float * float)) : string :=
  match ring with
  | [] => EmptyString
  | (x, y) :: ring' =>
      (repr_float y +:+ " " +:+ repr_float x +:+ " ") +:+ poly_tokens ring'
  end.

Definition lat_lon_pair (p : float * float) : string :=
  repr_float (snd p) +:+ " " +:+ repr_float (fst p).

Definition lon_lat_pair (p : float * float) : string :=
  repr_float (fst p) +:+ " " +:+ repr_float (snd p).

(** A point with two coordinates. *)
Definition point2 (f : Feature float) : Prop :=
  is_Point (f_geometry f) = true
  /\ exists x y, f_geometry f = Some (Point [x; y]).

(** The ring of [[lon, lat]] vertices built for a way. *)
Definition way_ring (way : Way float) : list (list float) :=
  map (fun c => [lon c; lat c]) (way_geometry way).

(** The centroid of the ring of the way exists: it is not [POINT EMPTY]. *)
Definition has_centroid (way : Way float) : Prop :=
  polygon_centroid (way_ring way) <> inr [].

(** Each way gives one feature with the tags of the way: its geometry is the
    point at the centroid of the ring, the coordinates rounded to 6 decimals,
    and no geometry when the centroid is [POINT EMPTY]. *)
Definition centroid_feature (way : Way float) (f : Feature float) : Prop :=
  exists center,
    polygon_centroid (way_ring way) = inr center
    /\ f_properties f = way_tags way
    /\ f_geometry f = match center with
                      | [] => None
                      | _ :: _ => Some (Point (map round6 center))
                      end.

(** Running the statements in order and dropping what each returns. *)
Fixpoint run_discarding (sql : list string) (wkt : string) : M DB unit :=
  match sql with
  | [] => mret tt
  | query :: sql' =>
      mbind (queryLocal float_of_str db_execute db_fetchall query wkt)
        (fun _ => run_discarding sql' wkt)
  end.

(** The collection built from the last statement only: the statements before
    it are run and their features dropped. *)
Definition last_statement_only (sql : list string) (wkt : string)
  : M DB (collection float) :=
  mbind (run_discarding (removelast sql) wkt)
    (fun _ =>
       mbind (queryLocal float_of_str db_execute db_fetchall
                (List.last sql EmptyString) wkt)
         (fun result => mret (FeatureCollection result))).

(** A computation that leaves the cursor alone, runs no SQL and does not raise
    [ConnectionError]. *)
Definition net_only {A} (m : M DB A) : Prop :=
  forall w out w',
    m w = (out, w') ->
    out <> Raise ConnectionError
    /\ w_cursor w' = w_cursor w
    /\ exists tr, w_trace w' = w_trace w ++ tr
                  /\ Forall (fun e => no_execute e = true) tr.

(** The remote path of [getFeatures]: the filter document is built and handed
    to [queryRemote]. *)
Definition remote_collection (self : DatabaseAccess) (fuel : nat)
  (data : DataModel) (poly : json) : M DB (collection float) :=
  mbind (lift (createJson json_dumps data poly))
    (fun request =>
       mbind (queryRemote server ZipFile self fuel request)
         (fun content => mret (RawGeoJSON content))).

(** The events of the first [n] passes of the poll loop, the session having
    sent [g] GET requests before. *)
Definition passes (newurl : string) (g n : nat) : list event :=
  concat (map (fun k => pass_events newurl (get server k newurl)) (seq g n)).

(** The number of answers with status PENDING among those to the GET requests
    [g], ..., [g + n - 1]. *)
Definition pending_answers (newurl : string) (g n : nat) : nat :=
  length (List.filter
            (fun k => String.eqb (status (get server k newurl)) "PENDING")
            (seq g n)).


End Formulations.

(** ** Concrete collaborators

    A float is written as its [repr]; the database remembers the statement it
    ran last and answers a SELECT on a view with one fixed row; the zip reader
    knows one archive. *)

Module Mock.

Definition float : Type := string.

Definition numeric_char (c : ascii) : bool :=
  Py.contains (String c EmptyString) "0123456789.-+e".

Fixpoint numeric (s : string) : bool :=
  match s with
  | EmptyString => true
  | String c s' => numeric_char c && numeric s'
  end.

Definition float_of_str (s : string) : option float :=
  match s with
  | EmptyString => None
  | _ => if numeric s then Some s else None
  end.

Definition repr_float (x : float) : string := x.

(** The value of a decimal digit. *)
Definition digit (c : ascii) : option N :=
  let n := N_of_ascii c in
  if ((48 <=? n) && (n <=? 57))%N then Some (n - 48)%N else None.

Fixpoint digits_value (s : string) (acc : N) : option N :=
  match s with
  | EmptyString => Some acc
  | String c s' =>
      match digit c with
      | Some d => digits_value s' (10 * acc + d)%N
      | None => None
      end
  end.

Fixpoint zeros (n : nat) : string :=
  match n with
  | O => EmptyString
  | S n' => String "0"%char (zeros n')
  end.

Fixpoint strip_zeros (rev_digits : list ascii) : list ascii :=
  match rev_digits with
  | "0"%char :: (_ :: _) as rest => strip_zeros rest
  | _ => rev_digits
  end.

(** The number [n] of millionths as a decimal. *)
Definition millionths (n : N) : string :=
  let text := NilZero.string_of_uint (N.to_uint n) in
  let text := zeros (7 - String.length text) +:+ text in
  let cut := (String.length text - 6)%nat in
  let frac := list_ascii_of_string (Py.drop cut text) in
  Py.take cut text +:+ "."
  +:+ string_of_list_ascii (rev (strip_zeros (rev frac))).

(** The digits around the point, cut after the sixth decimal and counted
    up when the seventh is 5 or more; [None] when there is no seventh. *)
Definition round6_unsigned (s : string) : option string :=
  match Py.find "." s with
  | Some dot =>
      let whole := Py.take dot s in
      let frac := Py.drop (S dot) s in
      match digits_value (whole +:+ Py.take 6 frac) 0,
            digits_value (Py.drop 6 frac) 0,
            String.get 6 frac with
      | Some n, Some _, Some seventh =>
          Some (millionths (if (53 <=? N_of_ascii seventh)%N
                            then n + 1 else n)%N)
      | _, _, _ => None
      end
  | None => None
  end.

(** [round(x, 6)] on a float written as a plain decimal (an optional minus,
    digits, a point, digits): the seventh decimal decides and trailing zeros
    are not written, as in [repr].  Any other text is left as it is. *)
Definition round6_text (x : float) : float :=
  match x with
  | String "-"%char x' =>
      match round6_unsigned x' with
      | Some r => String "-"%char r
      | None => x
      end
  | _ =>
      match round6_unsigned x with
      | Some r => r
      | None => x
      end
  end.

#[global] Instance float_round6 : Round6 float := round6_text.

Definition DB : Type := string.

Definition db_connect (connect : string) : exc (connection DB) :=
  ret {| conn_cursor := ret EmptyString |}.

Definition db_execute (sql : string) (db : DB) : exc DB := ret sql.

Definition node_row : row :=
  [Col (SInt 1001); Col (SStr "SRID=4326;POINT(1.5 2.5)");
   ColTags {[ "name" := SStr "Town Hall" ]}].

Definition way_row : row :=
  [Col (SInt 2002); Col (SStr "SRID=4326;POINT(3.25 4.75)");
   ColTags {[ "building" := SStr "yes" ]}].

Definition db_fetchall (db : DB) : exc (list row) :=
  if Py.contains " FROM ways_view " db then ret [way_row]
  else if Py.contains " FROM nodes_view " db then ret [node_row]
  else raise (DatabaseError "no results to fetch").

Definition pending : Response :=
  {| status := "PENDING"; download_url := None; content := [] |}.

Definition success : Response :=
  {| status := "SUCCESS";
     download_url := Some "https://example.org/export.zip";
     content := [] |}.

Definition failed : Response :=
  {| status := "FAILED"; download_url := None; content := [] |}.

Definition archive_bytes : list byte := [x50; x4b; x03; x04].

Definition geojson_bytes : list byte := [x7b; x7d].

(** PENDING, PENDING, SUCCESS, then the archive. *)
Definition server : Server :=
  {| post := fun _ _ => Some "task-1";
     get := fun k _ =>
       match k with
       | 0 | 1 => pending
       | 2 => success
       | _ => {| status := EmptyString; download_url := None;
                 content := archive_bytes |}
       end%nat |}.

(** A task that reports FAILED for ever. *)
Definition failed_server : Server :=
  {| post := fun _ _ => Some "task-1"; get := fun _ _ => failed |}.

Fixpoint bytes_eqb (a b : list byte) : bool :=
  match a, b with
  | [], [] => true
  | x :: a', y :: b' => Byte.eqb x y && bytes_eqb a' b'
  | _, _ => false
  end.

Definition ZipFile (content : list byte) : option (gmap string (list byte)) :=
  if bytes_eqb content archive_bytes
  then Some {[ "Export.geojson" := geojson_bytes ]}
  else None.

Definition world0 : world DB :=
  {| w_cursor := None; w_gets := 0; w_trace := [] |}.

Definition world_db : world DB :=
  {| w_cursor := Some EmptyString; w_gets := 0; w_trace := [] |}.

(** The exterior ring of a boundary, as [(x, y)] = (longitude, latitude). *)
Definition ring : list (float * float) :=
  [("10.0", "50.0"); ("11.0", "50.0"); ("11.0", "51.0"); ("10.0", "50.0")].

(** A square way, and the one centroid the mock geometry library knows. *)
Definition square : Way float :=
  {| way_geometry :=
       [ {| lat := "0.0"; lon := "0.0" |}; {| lat := "0.0"; lon := "2.0" |};
         {| lat := "2.0"; lon := "2.0" |}; {| lat := "2.0"; lon := "0.0" |} ];
     way_tags := {[ "building" := SStr "yes" ]} |}.

(** A way whose list of vertices is empty. *)
Definition no_vertices : Way float :=
  {| way_geometry := []; way_tags := {[ "building" := SStr "yes" ]} |}.

(** [Polygon([])] is the empty polygon and its centroid is [POINT EMPTY];
    any ring but these two is refused. *)
Definition polygon_centroid (poly : list (list float)) : exc (list float) :=
  if bool_decide (poly = [["0.0"; "0.0"]; ["2.0"; "0.0"]; ["2.0"; "2.0"];
                          ["0.0"; "2.0"]])
  then ret ["1.0"; "1.0"]
  else if bool_decide (poly = []) then ret []
       else raise ValueError.

(** An Overpass server that knows the square way only. *)
Definition overpass (query : string) : exc (list (Way float)) := ret [square].

(** An Overpass server whose answer is the way with no vertices. *)
Definition overpass_no_vertices (query : string) : exc (list (Way float)) :=
  ret [no_vertices].

(** A cursor whose query returns one row with a NULL centroid. *)
Definition null_row : row := [Col (SInt 3003); Col SNone; ColTags ∅].

Definition db_fetchall_null (db : DB) : exc (list row) :=
  ret [node_row; null_row].

(** A server whose answer to the POST has no [task_id]. *)
Definition no_task_server : Server :=
  {| post := fun _ _ => None; get := fun _ _ => failed |}.

(** A database that refuses every connection. *)
Definition db_down (connect : string) : exc (connection DB) :=
  raise (DatabaseError "connection refused").

(** A database that accepts the connection and refuses the cursor. *)
Definition db_no_cursor (connect : string) : exc (connection DB) :=
  ret {| conn_cursor := raise (DatabaseError "connection already closed") |}.

(** A tag cleaner that keeps the collection as it is. *)
Definition cleanData (category : string) (c : collection float)
  : exc (collection float) := ret c.

(** A file system on which every file opens, and one on which none does. *)
Definition open_w (filespec : string) : exc unit := ret tt.

Definition open_denied (filespec : string) : exc unit :=
  raise (OSError "Permission denied").

Definition scalar_json (v : scalar) : json :=
  match v with
  | SNone => JNull
  | SInt z => JNum (NilZero.string_of_int (Z.to_int z))
  | SStr s => JStr s
  end.

Definition geometry_json (g : option (geometry float)) : json :=
  match g with
  | None => JNull
  | Some (Point cs) =>
      JObj [("type", JStr "Point"); ("coordinates", JArr (map JNum cs))]
  | Some (LineString ps) =>
      JObj [("type", JStr "LineString");
            ("coordinates", JArr (map (fun p => JArr (map JNum p)) ps))]
  | Some (Polygon rs) =>
      JObj [("type", JStr "Polygon");
            ("coordinates",
             JArr (map (fun r => JArr (map (fun p => JArr (map JNum p)) r))
                     rs))]
  end.

Definition feature_json (f : Feature float) : json :=
  JObj [("type", JStr "Feature");
        ("geometry", geometry_json (f_geometry f));
        ("properties",
         JObj (map (fun kv => (fst kv, scalar_json (snd kv)))
                 (map_to_list (f_properties f))))].

(** A writer that always ends: the document of a feature collection, the
    text of a raw one. *)
Definition dump (new : collection float) : string * option exn :=
  match new with
  | FeatureCollection features =>
      (dumps_plain (JObj [("type", JStr "FeatureCollection");
                          ("features", JArr (map feature_json features))]),
       None)
  | RawGeoJSON bytes => (string_of_list_byte bytes, None)
  end.

(** A writer that is stopped after the opening brace. *)
Definition dump_stopped (new : collection float) : string * option exn :=
  ("{", Some TypeError).

End Mock.

(** ** Concrete data models, clients, statements and features *)

Definition amenities : DataModel :=
  {| dm_select := Some {| sel_tags := None; sel_fields := ∅ |};
     dm_from := Some ["nodes"];
     dm_where := Some {| where_tags := Some [[("amenity", "not null")]] |} |}.

(** The same without the [select] entry. *)
Definition amenities_without_select : DataModel :=
  {| dm_select := None;
     dm_from := Some ["nodes"];
     dm_where := Some {| where_tags := Some [[("amenity", "not null")]] |} |}.

(** A data model with a [where] entry whose tag mapping is empty, and one
    with no [where] entry at all. *)
Definition no_required : DataModel :=
  {| dm_select := Some {| sel_tags := None; sel_fields := ∅ |};
     dm_from := Some ["nodes"];
     dm_where := Some {| where_tags := Some [[]] |} |}.

Definition no_where : DataModel :=
  {| dm_select := Some {| sel_tags := None; sel_fields := ∅ |};
     dm_from := Some ["nodes"];
     dm_where := None |}.

Definition nodes_and_relations : DataModel :=
  {| dm_select := Some {| sel_tags := None; sel_fields := ∅ |};
     dm_from := Some ["nodes"; "relations"];
     dm_where :=
       Some {| where_tags :=
                 Some [[("amenity", "not null"); ("building", "yes")]] |} |}.

Definition buildings : DataModel :=
  {| dm_select := Some {| sel_tags := None; sel_fields := ∅ |};
     dm_from := Some ["nodes"; "ways_poly"];
     dm_where := Some {| where_tags := Some [[("building", "not null")]] |} |}.

Definition underpass : DatabaseAccess :=
  {| dbshell := false; session := true;
     url := Some "https://raw-data-api0.hotosm.org/v1" |}.

Definition postgres : DatabaseAccess :=
  {| dbshell := true; session := false; url := None |}.

Definition local_query : string :=
  "SELECT osm_id AS id, ST_AsEWKT(ST_Centroid(geom)), tags  FROM nodes  WHERE tags->>'amenity' IS NOT NULL".

Definition boundary_wkt : string := "POLYGON ((10 50, 11 50, 11 51, 10 50))".

Definition buildings_sql : list string :=
  ["SELECT osm_id AS id, ST_AsEWKT(ST_Centroid(geom)), tags  FROM nodes  WHERE tags->>'building' IS NOT NULL";
   "SELECT osm_id AS id, ST_AsEWKT(ST_Centroid(geom)), tags  FROM ways_poly  WHERE tags->>'building' IS NOT NULL"].

Definition node_feature : Feature Mock.float :=
  {| f_geometry := Some (Point ["1.5"; "2.5"]);
     f_properties :=
       {[ "name" := SStr "Town Hall";
          "id" := SStr "SRID=4326;POINT(1.5 2.5)";
          "title" := SStr "Town Hall";
          "label" := SStr "Town Hall" ]} |}.

Definition way_feature_of_row : Feature Mock.float :=
  {| f_geometry := Some (Point ["3.25"; "4.75"]);
     f_properties :=
       {[ "building" := SStr "yes";
          "id" := SStr "SRID=4326;POINT(3.25 4.75)";
          "title" := SNone;
          "label" := SNone ]} |}.

Definition square_feature : Feature Mock.float :=
  {| f_geometry := Some (Point ["1.0"; "1.0"]);
     f_properties := {[ "building" := SStr "yes" ]} |}.

Definition no_vertices_feature : Feature Mock.float :=
  {| f_geometry := None; f_properties := {[ "building" := SStr "yes" ]} |}.

(** Two required tags and one that is not. *)
Definition shops_or_amenities : DataModel :=
  {| dm_select :=
       Some {| sel_tags := Some ["name"];
               sel_fields := {[ "name" := "tags->>'name'" ]} |};
     dm_from := Some ["nodes"; "relations"];
     dm_where :=
       Some {| where_tags :=
                 Some [[("amenity", "not null"); ("access", "yes");
                        ("shop", "not null")]] |} |}.

(** A [select] that lists a tag, [addr], for which it has no entry. *)
Definition unlisted_tag : DataModel :=
  {| dm_select :=
       Some {| sel_tags := Some ["name"; "addr"];
               sel_fields := {[ "name" := "tags->>'name'" ]} |};
     dm_from := Some ["nodes"];
     dm_where := Some {| where_tags := Some [[("amenity", "not null")]] |} |}.

(** A [where] entry without [tags], and one whose [tags] is an empty list. *)
Definition no_where_tags : DataModel :=
  {| dm_select := Some {| sel_tags := None; sel_fields := ∅ |};
     dm_from := Some ["nodes"];
     dm_where := Some {| where_tags := None |} |}.

Definition empty_where_tags : DataModel :=
  {| dm_select := Some {| sel_tags := None; sel_fields := ∅ |};
     dm_from := Some ["nodes"];
     dm_where := Some {| where_tags := Some [] |} |}.

(** Required tags and nothing else, and required tags with a table but no
    [select] entry. *)
Definition where_without_from : DataModel :=
  {| dm_select := None;
     dm_from := None;
     dm_where := Some {| where_tags := Some [[("amenity", "not null")]] |} |}.

Definition where_only : DataModel :=
  {| dm_select := None;
     dm_from := Some ["ways_poly"];
     dm_where := Some {| where_tags := Some [[("amenity", "not null")]] |} |}.

(** A data model with no source table. *)
Definition no_tables : DataModel :=
  {| dm_select := None; dm_from := Some []; dm_where := None |}.

(** A row with a three-dimensional centroid whose first coordinate has
    seven decimals. *)
Definition row_3d : row :=
  [Col (SInt 7); Col (SStr "SRID=4326;POINT(1.1234567 2.5 9.0)"); ColTags ∅].

(** The request that [createJson] builds for [buildings] and no boundary. *)
Definition buildings_request : string :=
  match createJson dumps_plain buildings JNull with
  | inr request => request
  | inl _ => EmptyString
  end.

(** The runs on which the further properties are tried. *)
Definition local_run :=
  queryLocal Mock.float_of_str Mock.db_execute Mock.db_fetchall
    local_query boundary_wkt Mock.world_db.

Definition postgres_run :=
  PostgresClient_collection Mock.float_of_str Mock.db_execute Mock.db_fetchall
    Mock.server Mock.ZipFile dumps_plain postgres 0 buildings JNull
    boundary_wkt Mock.world_db.

Definition getFeatures_run :=
  PostgresClient_getFeatures Mock.float_of_str Mock.db_execute
    Mock.db_fetchall Mock.server Mock.ZipFile dumps_plain
    (collection Mock.float) Mock.cleanData Mock.open_w Mock.dump postgres 0
    buildings JNull boundary_wkt "buildings.geojson" "buildings"
    Mock.world_db.

Definition getFeatures_stopped_run :=
  PostgresClient_getFeatures Mock.float_of_str Mock.db_execute
    Mock.db_fetchall Mock.server Mock.ZipFile dumps_plain
    (collection Mock.float) Mock.cleanData Mock.open_w Mock.dump_stopped
    postgres 0 buildings JNull boundary_wkt "buildings.geojson" "buildings"
    Mock.world_db.

Definition getFeatures_denied_run :=
  PostgresClient_getFeatures Mock.float_of_str Mock.db_execute
    Mock.db_fetchall Mock.server Mock.ZipFile dumps_plain
    (collection Mock.float) Mock.cleanData Mock.open_denied Mock.dump
    postgres 0 buildings JNull boundary_wkt "buildings.geojson" "buildings"
    Mock.world_db.

(** The text that the concrete writer gives for the collection of
    [getFeatures_run]. *)
Definition written_text : string :=
  fst (Mock.dump (FeatureCollection [way_feature_of_row])).

Definition poll_run := poll Mock.server 5 "u" Mock.world0.

Definition remote_run :=
  PostgresClient_collection Mock.float_of_str Mock.db_execute Mock.db_fetchall
    Mock.server Mock.ZipFile dumps_plain underpass 3 buildings JNull
    boundary_wkt Mock.world0.

(** * Properties *)

(** ** Strings *)

Section StringFacts.
Implicit Types a b s sub : string.

Lemma str_app_nil_l b : EmptyString +:+ b = b.
Proof. reflexivity. Qed.

Lemma str_app_cons c a b : String c a +:+ b = String c (a +:+ b).
Proof. reflexivity. Qed.

Lemma str_length_app a b :
  String.length (a +:+ b) = (String.length a + String.length b)%nat.
Proof.
  induction a as [|c a IH]; rewrite ?str_app_nil_l, ?str_app_cons; simpl;
    [reflexivity | now rewrite IH].
Qed.

Lemma app_assoc_str a b s : (a +:+ b) +:+ s = a +:+ (b +:+ s).
Proof.
  induction a as [|c a IH]; rewrite ?str_app_nil_l, ?str_app_cons;
    [reflexivity | now rewrite IH].
Qed.

Lemma str_app_nil_r a : a +:+ EmptyString = a.
Proof.
  induction a as [|c a IH]; rewrite ?str_app_nil_l, ?str_app_cons;
    [reflexivity | now rewrite IH].
Qed.

Lemma str_take_app a b n :
  Py.take (String.length a + n) (a +:+ b) = a +:+ Py.take n b.
Proof.
  induction a as [|c a IH]; rewrite ?str_app_nil_l, ?str_app_cons; simpl;
    [reflexivity | now rewrite IH].
Qed.

Lemma str_drop_app a b n :
  Py.drop (String.length a + n) (a +:+ b) = Py.drop n b.
Proof.
  induction a as [|c a IH]; rewrite ?str_app_nil_l, ?str_app_cons; simpl;
    [reflexivity | exact IH].
Qed.

Lemma slice_to_neg_app n a b :
  (n <= String.length b)%nat ->
  Py.slice_to_neg n (a +:+ b) = a +:+ Py.slice_to_neg n b.
Proof.
  intros Hn. unfold Py.slice_to_neg. rewrite str_length_app.
  replace (String.length a + String.length b - n)%nat
    with (String.length a + (String.length b - n))%nat by lia.
  apply str_take_app.
Qed.

Lemma prefix_app sub b : String.prefix sub (sub +:+ b) = true.
Proof.
  induction sub as [|c sub IH]; rewrite ?str_app_nil_l, ?str_app_cons; simpl.
  - now destruct b.
  - destruct (Ascii.ascii_dec c c) as [_|Hc]; [exact IH | now destruct Hc].
Qed.

Lemma find_from_eq sub s i :
  Py.find_from sub s i =
  if String.prefix sub s then Some i
  else match s with
       | EmptyString => None
       | String _ s' => Py.find_from sub s' (S i)
       end.
Proof. destruct s; reflexivity. Qed.

Lemma find_from_app sub a b i :
  exists j, Py.find_from sub (a +:+ sub +:+ b) i = Some j.
Proof.
  revert i. induction a as [|c a IH]; intros i; rewrite ?str_app_nil_l, ?str_app_cons.
  - rewrite find_from_eq, prefix_app. eauto.
  - rewrite find_from_eq.
    destruct (String.prefix sub (String c (a +:+ sub +:+ b))); eauto.
Qed.

Lemma contains_app sub a b : Py.contains sub (a +:+ sub +:+ b) = true.
Proof.
  unfold Py.contains, Py.find.
  destruct (find_from_app sub a b 0) as [j ->]. reflexivity.
Qed.

Lemma endswith_app suf a b :
  (String.length suf <= String.length b)%nat ->
  Py.endswith suf (a +:+ b) = Py.endswith suf b.
Proof.
  intros Hn. unfold Py.endswith. rewrite str_length_app.
  replace (String.length a + String.length b - String.length suf)%nat
    with (String.length a + (String.length b - String.length suf))%nat by lia.
  rewrite str_drop_app. f_equal.
  apply Nat.leb_le in Hn as Hb. rewrite Hb. apply Nat.leb_le. lia.
Qed.

(** The operations on the values the module meets. *)
Example slice_to_neg_or :
  Py.slice_to_neg 4 "x IS NOT NULL OR " = "x IS NOT NULL"
  /\ Py.slice_to_neg 4 " WHERE " = " WH"
  /\ Py.slice_to_neg 4 "abc" = EmptyString
  /\ Py.slice_to_neg 1 EmptyString = EmptyString.
Proof. repeat split. Qed.

Example slice_ewkt :
  Py.slice_from_to_neg 16 1 "SRID=4326;POINT(1.5 2.5)" = "1.5 2.5"
  /\ Py.split_space "1.5 2.5" = ["1.5"; "2.5"]
  /\ Py.split_space EmptyString = [EmptyString]
  /\ Py.split_space "a  b" = ["a"; EmptyString; "b"].
Proof. repeat split. Qed.

Example find_replace :
  Py.find "b" "abc" = Some 1%nat
  /\ Py.find "x" "abc" = None
  /\ Py.find_pos "a" "abc" = false
  /\ Py.replace "nodes" "nodes_view" "FROM nodes  WHERE nodes"
     = "FROM nodes_view  WHERE nodes_view"
  /\ Py.replace "aa" "b" "aaa" = "ba".
Proof. repeat split. Qed.

End StringFacts.

(** Lower bounds on the length of a concatenation with literal pieces. *)
Ltac len_solve := rewrite ?str_length_app; cbn [String.length]; lia.

(** ** QueryBuilder: createSQL *)

Section CreateSQL.

Lemma createSQL_select_tags_total fields tags query :
  forallb (fun tag => bool_decide (is_Some (fields !! tag))) tags = true ->
  exists q, createSQL_select_tags fields tags query = inr q.
Proof.
  revert query. induction tags as [|tag tags IH]; intros query Hall.
  - now exists query.
  - simpl in Hall. apply andb_true_iff in Hall as [Htag Hall].
    apply bool_decide_eq_true in Htag as [src Hsrc].
    simpl. rewrite Hsrc. simpl. now apply IH.
Qed.

Lemma createSQL_select_total select query :
  select_ok select = true ->
  exists q, createSQL_select select query = inr q.
Proof.
  unfold select_ok, createSQL_select. destruct (sel_tags select) as [tags|].
  - intros Hall.
    destruct (createSQL_select_tags_total _ _ query Hall) as [q ->].
    simpl. eauto.
  - eauto.
Qed.

Lemma createSQL_where_acc tags query :
  createSQL_where tags query = query +:+ createSQL_where tags EmptyString.
Proof.
  revert query. induction tags as [|[tag value] tags IH]; intros query; simpl.
  - now rewrite str_app_nil_r.
  - destruct (not_null value).
    + rewrite IH.
      rewrite (IH (EmptyString +:+ _)).
      now rewrite str_app_nil_l, !app_assoc_str.
    + apply IH.
Qed.

Lemma createSQL_where_none tags query :
  no_required_tag tags = true -> createSQL_where tags query = query.
Proof.
  revert query. induction tags as [|[tag value] tags IH]; intros query Hn.
  - reflexivity.
  - simpl in Hn. apply andb_true_iff in Hn as [Hv Hn].
    simpl. destruct (not_null value); [discriminate | now apply IH].
Qed.

Lemma createSQL_query_eq data table select q0 tags :
  dm_select data = Some select ->
  createSQL_select select "SELECT " = inr q0 ->
  where_tags0 data = inr tags ->
  createSQL_query data table =
  inr (Py.slice_to_neg 4
         (createSQL_where tags
            ((q0 +:+ " FROM " +:+ table +:+ " ") +:+ " WHERE "))).
Proof.
  intros Hsel Hq0 Htags. unfold createSQL_query.
  rewrite Hsel. simpl. rewrite Hq0. simpl.
  destruct (dm_where data) as [w|] eqn:Hw.
  - simpl. rewrite Htags. reflexivity.
  - unfold where_tags0 in Htags. rewrite Hw in Htags. discriminate.
Qed.

Lemma createSQL_loop_map data tables sql (f : string -> string) :
  (forall table, createSQL_query data table = inr (f table)) ->
  createSQL_loop data tables sql = inr (sql ++ map f tables).
Proof.
  intros Hf. revert sql. induction tables as [|table tables IH]; intros sql.
  - simpl. now rewrite app_nil_r.
  - simpl. rewrite Hf. simpl. rewrite IH. now rewrite <- app_assoc.
Qed.

End CreateSQL.

Section CreateSQLClaims.

(** C3, as amended. For a data model with a [select] entry in which every
    tag listed under [select.tags] has its entry, with one source table and
    the required tags [{"amenity": "not null"}], [createSQL] returns exactly
    one statement; it is the SELECT clause followed by the FROM clause and
    [WHERE tags->>'amenity' IS NOT NULL], so it contains that condition and
    ends with neither the [" OR "] nor the [" FROM "] glue. *)
Theorem createSQL_amenity_one_statement data select table rest :
  dm_select data = Some select ->
  select_ok select = true ->
  dm_from data = Some [table] ->
  dm_where data =
    Some {| where_tags := Some ([("amenity", "not null")] :: rest) |} ->
  exists head stmt,
    createSQL data = inr [stmt]
    /\ stmt = head +:+ " FROM " +:+ table
              +:+ "  WHERE tags->>'amenity' IS NOT NULL"
    /\ Py.contains "tags->>'amenity' IS NOT NULL" stmt = true
    /\ Py.endswith " OR " stmt = false
    /\ Py.endswith " FROM " stmt = false.
Proof.
  intros Hsel Hok Hfrom Hwhere.
  destruct (createSQL_select_total select "SELECT " Hok) as [q0 Hq0].
  assert (Htags : where_tags0 data = inr [("amenity", "not null")]).
  { unfold where_tags0. now rewrite Hwhere. }
  pose proof (createSQL_query_eq data table select q0 _ Hsel Hq0 Htags) as Hq.
  set (stmt := q0 +:+ " FROM " +:+ table
               +:+ "  WHERE tags->>'amenity' IS NOT NULL").
  assert (Hstmt : createSQL_query data table = inr stmt).
  { rewrite Hq. f_equal. rewrite createSQL_where_acc.
    change (createSQL_where [("amenity", "not null")] EmptyString)
      with "tags->>'amenity' IS NOT NULL OR ".
    rewrite !app_assoc_str. unfold stmt.
    rewrite !slice_to_neg_app by len_solve.
    reflexivity. }
  exists q0, stmt. split; [|split; [reflexivity|split; [|split]]].
  - unfold createSQL. rewrite Hfrom. simpl. now rewrite Hstmt.
  - unfold stmt.
    replace (q0 +:+ " FROM " +:+ table
             +:+ "  WHERE tags->>'amenity' IS NOT NULL")
      with ((q0 +:+ " FROM " +:+ table +:+ "  WHERE ")
            +:+ "tags->>'amenity' IS NOT NULL" +:+ EmptyString)
      by (now rewrite !app_assoc_str).
    apply contains_app.
  - unfold stmt. rewrite !endswith_app by len_solve. reflexivity.
  - unfold stmt. rewrite !endswith_app by len_solve. reflexivity.
Qed.

Lemma createSQL_amenity_one_statement_witness :
  exists head stmt,
    createSQL amenities = inr [stmt]
    /\ stmt = head +:+ " FROM " +:+ "nodes"
              +:+ "  WHERE tags->>'amenity' IS NOT NULL"
    /\ Py.contains "tags->>'amenity' IS NOT NULL" stmt = true
    /\ Py.endswith " OR " stmt = false
    /\ Py.endswith " FROM " stmt = false.
Proof.
  apply (createSQL_amenity_one_statement amenities
           {| sel_tags := None; sel_fields := ∅ |} "nodes" []);
    reflexivity.
Defined.

(** C3, as stated: a data model with one source table and the required tags
    [{"amenity": "not null"}] that has no [select] entry.  [data['select']]
    is read for the first table, before anything is appended: it raises
    [KeyError] and [createSQL] produces no statement. *)
Lemma createSQL_without_select :
  dm_select amenities_without_select = None
  /\ dm_from amenities_without_select = Some ["nodes"]
  /\ where_tags0 amenities_without_select = inr [("amenity", "not null")]
  /\ createSQL amenities_without_select = inl (KeyError "select")
  /\ ~ (exists stmt, createSQL amenities_without_select = inr [stmt]).
Proof.
  repeat (split; [reflexivity|]). intros [stmt H]. discriminate H.
Qed.

(** With a [where] mapping that names no ["not null"] tag, every statement is
    cut inside the keyword WHERE. *)
Lemma createSQL_no_required_tag data select tables tags :
  dm_select data = Some select ->
  select_ok select = true ->
  dm_from data = Some tables ->
  where_tags0 data = inr tags ->
  no_required_tag tags = true ->
  exists head,
    createSQL data =
    inr (map (fun table => head +:+ " FROM " +:+ table +:+ "  WH") tables).
Proof.
  intros Hsel Hok Hfrom Htags Hnone.
  destruct (createSQL_select_total select "SELECT " Hok) as [q0 Hq0].
  exists q0. unfold createSQL. rewrite Hfrom. simpl.
  apply (createSQL_loop_map data tables []
           (fun table => q0 +:+ " FROM " +:+ table +:+ "  WH")).
  intros table.
  rewrite (createSQL_query_eq data table select q0 tags Hsel Hq0 Htags).
  f_equal. rewrite createSQL_where_none by exact Hnone.
  rewrite !app_assoc_str.
  rewrite !slice_to_neg_app by len_solve.
  reflexivity.
Qed.

(** C4. With no required tag, the statement of [createSQL] does not end after
    the FROM clause: [query[:-4]] cuts the glue [" WHERE "] and leaves
    [" WH"]; with no [where] entry at all, [data['where']] raises
    [KeyError] and no statement is produced. *)
Theorem createSQL_no_required_tag_truncated :
  createSQL no_required =
    inr ["SELECT osm_id AS id, ST_AsEWKT(ST_Centroid(geom)), tags  FROM nodes  WH"]
  /\ createSQL no_where = inl (KeyError "where").
Proof. split; reflexivity. Qed.

End CreateSQLClaims.

(** ** QueryBuilder: createJson *)

Section CreateJson.

Lemma createJson_tables_omap from :
  createJson_tables from = map JStr (omap geometry_type from).
Proof.
  induction from as [|table from IH]; [reflexivity|].
  cbn [createJson_tables omap list_omap]. unfold geometry_type at 1.
  destruct (String.eqb table "nodes"); [simpl; now rewrite IH|].
  destruct (String.eqb table "ways_poly"); [simpl; now rewrite IH|].
  destruct (String.eqb table "ways_line"); [simpl; now rewrite IH|].
  exact IH.
Qed.

Lemma obj_set_fresh k v m :
  ~ In k (map fst m) -> obj_set k v m = m ++ [(k, v)].
Proof.
  induction m as [|[k' v'] m IH]; intros Hk; [reflexivity|].
  simpl. destruct (String.eqb_spec k k') as [->|Hne].
  - destruct Hk. now left.
  - rewrite IH; [reflexivity|]. intros Hin. apply Hk. now right.
Qed.

Lemma createJson_columns_app tags columns :
  List.NoDup (map fst columns ++ map fst tags) ->
  createJson_columns tags columns = columns ++ join_or tags.
Proof.
  revert columns. induction tags as [|[tag value] tags IH]; intros columns Hnd.
  - unfold join_or. simpl. now rewrite app_nil_r.
  - cbn [createJson_columns]. unfold join_or. cbn [List.filter snd].
    destruct (not_null value).
    + rewrite obj_set_fresh.
      * rewrite IH.
        -- cbn [map fst]. now rewrite <- app_assoc.
        -- rewrite map_app. cbn [map fst]. rewrite <- app_assoc. exact Hnd.
      * apply NoDup_remove_2 in Hnd. intros Hin. apply Hnd.
        apply in_or_app. now left.
    + apply IH. apply NoDup_remove_1 in Hnd. exact Hnd.
Qed.

End CreateJson.

Section CreateJsonClaims.
Variable json_dumps : json -> string.

(** C2, as amended. The filter document of [createJson] has [geometry] equal
    to the boundary, [filters.tags.all_geometry.join_or] mapping each
    required tag with predicate ["not null"] to an empty list,
    [geometryType] equal to the source tables translated in order by
    [geometry_type] with the other tables dropped, and [centroid] equal to
    the string ["true"]. *)
Theorem createJson_filter_document data boundary tags from :
  where_tags0 data = inr tags ->
  List.NoDup (map fst tags) ->
  dm_from data = Some from ->
  exists features,
    createJson json_dumps data boundary = inr (json_dumps features)
    /\ json_get "geometry" features = Some boundary
    /\ json_path ["filters"; "tags"; "all_geometry"; "join_or"] features
       = Some (JObj (join_or tags))
    /\ json_get "geometryType" features
       = Some (JArr (map JStr (omap geometry_type from)))
    /\ json_get "centroid" features = Some (JStr "true").
Proof.
  intros Htags Hnd Hfrom. unfold createJson, createJson_features.
  rewrite Htags, Hfrom. simpl.
  eexists. split; [reflexivity|].
  rewrite createJson_columns_app by exact Hnd.
  rewrite createJson_tables_omap. repeat split.
Qed.

End CreateJsonClaims.

Lemma createJson_filter_document_witness :
  exists features,
    createJson dumps_plain nodes_and_relations JNull
      = inr (dumps_plain features)
    /\ json_get "geometry" features = Some JNull
    /\ json_path ["filters"; "tags"; "all_geometry"; "join_or"] features
       = Some (JObj [("amenity", JArr [])])
    /\ json_get "geometryType" features = Some (JArr [JStr "point"])
    /\ json_get "centroid" features = Some (JStr "true").
Proof.
  apply (createJson_filter_document dumps_plain nodes_and_relations JNull
           [("amenity", "not null"); ("building", "yes")]
           ["nodes"; "relations"]).
  - reflexivity.
  - repeat constructor; simpl; intuition discriminate.
  - reflexivity.
Defined.

(** C2, as stated: [centroid] is not the JSON value [true]. *)
Lemma createJson_centroid_not_boolean :
  exists features,
    createJson_features nodes_and_relations JNull = inr features
    /\ json_get "centroid" features <> Some (JBool true).
Proof. eexists. split; [reflexivity | discriminate]. Qed.

(** ** RemoteSnapshotClient: queryRemote *)

Section QueryRemote.
Context {DB : Type}.
Variable server : Server.
Variable ZipFile : list byte -> option (gmap string (list byte)).
Implicit Types w : world DB.

Lemma mbind_Ok {A B} (m : M DB A) (k : A -> M DB B) w a w' :
  m w = (Ok a, w') -> mbind m k w = k a w'.
Proof. intros Hm. unfold mbind. now rewrite Hm. Qed.

Lemma after_passes_0 newurl w : after_passes server newurl 0 w = w.
Proof.
  destruct w as [c g tr]. unfold after_passes. simpl.
  now rewrite Nat.add_0_r, app_nil_r.
Qed.

Lemma poll_step fuel newurl w :
  status (get server (w_gets w) newurl) <> "SUCCESS" ->
  poll server (S fuel) newurl w = poll server fuel newurl (after_passes server newurl 1 w).
Proof.
  intros Hs. destruct w as [c g tr]. cbn [w_gets] in Hs.
  cbn [poll]. unfold mbind, session_get, emit, after_passes, pass_events.
  cbn [w_gets w_trace w_cursor seq map concat].
  destruct (String.eqb_spec (status (get server g newurl)) "PENDING") as [Hp|Hp].
  - cbn [w_gets w_trace w_cursor].
    rewrite app_nil_r, Nat.add_1_r, <- app_assoc. reflexivity.
  - destruct (String.eqb_spec (status (get server g newurl)) "SUCCESS")
      as [Hsucc|_]; [contradiction|].
    rewrite app_nil_r, Nat.add_1_r. reflexivity.
Qed.

Lemma after_passes_S newurl n w :
  after_passes server newurl n (after_passes server newurl 1 w) = after_passes server newurl (S n) w.
Proof.
  destruct w as [c g tr]. unfold after_passes.
  cbn [w_gets w_trace w_cursor seq map concat]. f_equal.
  - lia.
  - rewrite app_nil_r, Nat.add_1_r, <- app_assoc. reflexivity.
Qed.

(** While no answer is SUCCESS the loop only goes on. *)
Lemma poll_running newurl fuel w :
  (forall k, (w_gets w <= k < w_gets w + fuel)%nat ->
             status (get server k newurl) <> "SUCCESS") ->
  poll server fuel newurl w = (Running, after_passes server newurl fuel w).
Proof.
  revert w. induction fuel as [|fuel IH]; intros w Hno.
  - now rewrite after_passes_0.
  - rewrite poll_step by (apply Hno; lia).
    rewrite IH.
    + now rewrite after_passes_S.
    + intros k Hk. apply Hno. destruct w; cbn in *. lia.
Qed.

(** The loop leaves on the first SUCCESS, after the passes before it. *)
Lemma poll_success newurl n fuel w :
  (forall k, (w_gets w <= k < w_gets w + n)%nat ->
             status (get server k newurl) <> "SUCCESS") ->
  status (get server (w_gets w + n) newurl) = "SUCCESS" ->
  (n < fuel)%nat ->
  poll server fuel newurl w =
  (Ok (get server (w_gets w + n) newurl),
   let w' := after_passes server newurl n w in
   {| w_cursor := w_cursor w'; w_gets := S (w_gets w');
      w_trace := w_trace w' ++ [EvGet newurl] |}).
Proof.
  revert fuel w. induction n as [|n IH]; intros fuel w Hno Hs Hlt.
  - destruct fuel as [|fuel]; [lia|].
    rewrite after_passes_0. rewrite Nat.add_0_r in *.
    cbn [poll]. unfold mbind, session_get, mret.
    rewrite Hs. reflexivity.
  - destruct fuel as [|fuel]; [lia|].
    rewrite poll_step by (apply Hno; lia).
    rewrite (IH fuel (after_passes server newurl 1 w)).
    + rewrite after_passes_S.
      replace (w_gets (after_passes server newurl 1 w) + n)%nat
        with (w_gets w + S n)%nat by (destruct w; cbn; lia).
      reflexivity.
    + intros k Hk. apply Hno. destruct w; cbn in *. lia.
    + replace (w_gets (after_passes server newurl 1 w) + n)%nat
        with (w_gets w + S n)%nat by (destruct w; cbn; lia).
      exact Hs.
    + lia.
Qed.

(** The loop never raises, and what it returns is an answer of the server
    with status SUCCESS. *)
Lemma poll_returns_success newurl fuel w out w' :
  poll server fuel newurl w = (out, w') ->
  out = Running
  \/ exists k, (w_gets w <= k)%nat
               /\ out = Ok (get server k newurl)
               /\ status (get server k newurl) = "SUCCESS".
Proof.
  revert w. induction fuel as [|fuel IH]; intros w Hp.
  - cbn in Hp. left. congruence.
  - destruct (String.eqb_spec (status (get server (w_gets w) newurl)) "SUCCESS")
      as [Hs|Hs].
    + rewrite (poll_success newurl 0 (S fuel) w) in Hp.
      * right. exists (w_gets w). rewrite Nat.add_0_r in Hp.
        repeat split; [lia | congruence | exact Hs].
      * intros k Hk. lia.
      * now rewrite Nat.add_0_r.
      * lia.
    + rewrite poll_step in Hp by exact Hs.
      destruct (IH _ Hp) as [Hr|(k & Hk & Hout & Hst)]; [now left|].
      right. exists k. repeat split; try assumption.
      destruct w; cbn in *. lia.
Qed.

(** C10. The poll loop leaves only on an answer with status SUCCESS: a run
    that is not still going has returned such an answer; and when no answer
    of the server has status SUCCESS, the loop is still going after any
    number of passes, each pass having sent one GET, followed by a sleep of
    1 only when the answer was PENDING. *)
Theorem poll_leaves_only_on_success newurl :
  (forall fuel w out w',
      poll server fuel newurl w = (out, w') -> out <> Running ->
      exists k, out = Ok (get server k newurl)
                /\ status (get server k newurl) = "SUCCESS")
  /\ ((forall k, status (get server k newurl) <> "SUCCESS") ->
      forall fuel w,
        poll server fuel newurl w = (Running, after_passes server newurl fuel w)).
Proof.
  split.
  - intros fuel w out w' Hp Hout.
    destruct (poll_returns_success newurl fuel w out w' Hp)
      as [Hr|(k & _ & Hk & Hs)]; [contradiction | eauto].
  - intros Hno fuel w. apply poll_running. intros k _. apply Hno.
Qed.

(** C1. Against a server that answers the status GET with PENDING twice and
    then with SUCCESS, [queryRemote] posts the query, sends exactly three
    status GETs with a sleep of 1 after each of the two PENDING answers,
    fetches [result.download_url] and returns the bytes of the archive
    member [Export.geojson]. *)
Theorem queryRemote_pending_twice_then_success
  self base query task_id zip zfp data fuel w :
  url self = Some base ->
  session self = true ->
  post server (base +:+ "/snapshot/") query = Some task_id ->
  status (get server (w_gets w) (status_url base task_id)) = "PENDING" ->
  status (get server (w_gets w + 1) (status_url base task_id)) = "PENDING" ->
  status (get server (w_gets w + 2) (status_url base task_id)) = "SUCCESS" ->
  download_url (get server (w_gets w + 2) (status_url base task_id))
    = Some zip ->
  ZipFile (content (get server (w_gets w + 3) zip)) = Some zfp ->
  zfp !! "Export.geojson" = Some data ->
  (3 <= fuel)%nat ->
  queryRemote server ZipFile self fuel query w =
  (Ok data,
   {| w_cursor := w_cursor w;
      w_gets := w_gets w + 4;
      w_trace := w_trace w ++
        [EvPost (base +:+ "/snapshot/") query;
         EvGet (status_url base task_id); EvSleep 1;
         EvGet (status_url base task_id); EvSleep 1;
         EvGet (status_url base task_id);
         EvGet zip;
         EvExtract "Export.geojson" "/tmp/"] |}).
Proof.
  intros Hurl Hsess Hpost Hp0 Hp1 Hs2 Hzip Hzfp Hdata Hfuel.
  destruct w as [c g tr]. cbn [w_gets w_cursor w_trace] in *.
  set (w1 := {| w_cursor := c; w_gets := g;
                w_trace := tr ++ [EvPost (base +:+ "/snapshot/") query] |}).
  assert (Hpoll :
    poll server fuel (status_url base task_id) w1 =
    (Ok (get server (g + 2) (status_url base task_id)),
     {| w_cursor := c; w_gets := g + 3;
        w_trace := tr ++
          [EvPost (base +:+ "/snapshot/") query;
           EvGet (status_url base task_id); EvSleep 1;
           EvGet (status_url base task_id); EvSleep 1;
           EvGet (status_url base task_id)] |})).
  { rewrite (poll_success (status_url base task_id) 2 fuel w1).
    - unfold after_passes, pass_events, w1.
      cbn [w_gets w_cursor w_trace seq map concat].
      rewrite Hp0. replace (S g) with (g + 1)%nat by lia. rewrite Hp1.
      cbn [String.eqb Ascii.eqb Bool.eqb].
      f_equal. f_equal; [lia|]. rewrite <- !app_assoc. reflexivity.
    - intros k Hk. unfold w1 in Hk. cbn [w_gets] in Hk.
      assert (k = g \/ k = (g + 1)%nat) as [->| ->] by lia.
      + rewrite Hp0. discriminate.
      + rewrite Hp1. discriminate.
    - exact Hs2.
    - lia. }
  unfold queryRemote.
  rewrite (mbind_Ok _ _ _ base {| w_cursor := c; w_gets := g; w_trace := tr |})
    by (now rewrite Hurl).
  rewrite (mbind_Ok _ _ _ task_id w1).
  2:{ rewrite Hsess. unfold session_post_task_id.
      rewrite (mbind_Ok _ _ _ tt w1) by reflexivity.
      now rewrite Hpost. }
  fold (status_url base task_id).
  rewrite (mbind_Ok _ _ _ _ _ Hpoll).
  rewrite Hzip.
  erewrite mbind_Ok by reflexivity.
  unfold mbind at 1. unfold session_get. cbn [w_gets w_cursor w_trace].
  rewrite Hzfp.
  erewrite mbind_Ok by reflexivity.
  rewrite Hdata.
  erewrite mbind_Ok by reflexivity.
  unfold mbind, emit, mret. cbn [w_gets w_cursor w_trace].
  f_equal. f_equal; [lia|].
  rewrite <- !app_assoc. reflexivity.
Qed.

End QueryRemote.

(** ** Inversion of the two monads *)

Lemma bind_inr {A B} (m : exc A) (k : A -> exc B) b :
  bind m k = inr b -> exists a, m = inr a /\ k a = inr b.
Proof. destruct m as [e|a]; simpl; [discriminate | eauto]. Qed.

Lemma of_option_inr {A} (e : exn) (o : option A) a :
  of_option e o = inr a -> o = Some a.
Proof. destruct o; simpl; [|discriminate]. unfold ret. congruence. Qed.

Lemma mbind_inv_Ok {DB A B} (m : M DB A) (k : A -> M DB B) w b w' :
  mbind m k w = (Ok b, w') ->
  exists a w1, m w = (Ok a, w1) /\ k a w1 = (Ok b, w').
Proof.
  unfold mbind. destruct (m w) as [[a|e|] w1]; [eauto | discriminate..].
Qed.

Lemma lift_inv_Ok {DB A} (m : exc A) (w : world DB) a w' :
  lift m w = (Ok a, w') -> m = inr a /\ w' = w.
Proof.
  destruct m as [e|a']; unfold lift, mret, mraise; intros H;
    [discriminate | split; congruence].
Qed.

(** ** LocalQueryEngine: queryLocal *)

Section QueryLocal.
Context {float : Type} {float_round : Round6 float}.
Variable float_of_str : string -> option float.
Context {DB : Type}.
Variable db_execute : string -> DB -> exc DB.
Variable db_fetchall : DB -> exc (list row).

(** The feature of a row has the point read from [item[1]] as geometry and
    [item[1]] itself, the EWKT text, as [id]. *)
Lemma row_feature_inv item f :
  row_feature float_of_str item = inr f ->
  exists ewkt x y,
    item !! 1%nat = Some (Col (SStr ewkt))
    /\ f_geometry f = Some (Point [round6 x; round6 y])
    /\ f_properties f !! "id" = Some (SStr ewkt).
Proof.
  unfold row_feature. intros H.
  apply bind_inr in H as (item1 & Hitem1 & H).
  apply of_option_inr in Hitem1.
  apply bind_inr in H as (ewkt & Hewkt & H).
  destruct item1 as [[| |s]|]; try discriminate.
  injection Hewkt as <-.
  apply bind_inr in H as (gps0 & _ & H).
  apply bind_inr in H as (x & _ & H).
  apply bind_inr in H as (gps1 & _ & H).
  apply bind_inr in H as (y & _ & H).
  apply bind_inr in H as (item2 & _ & H).
  apply bind_inr in H as (tags & _ & H).
  injection H as <-. exists s, x, y. cbn [f_geometry f_properties].
  repeat split; [exact Hitem1|].
  destruct (<["id":=SStr s]> tags !! "name");
    rewrite !lookup_insert_ne by discriminate; apply lookup_insert_eq.
Qed.

Lemma row_features_Forall (P : Feature float -> Prop) rows features out :
  (forall item f, row_feature float_of_str item = inr f -> P f) ->
  Forall P features ->
  row_features float_of_str rows features = inr out ->
  Forall P out.
Proof.
  intros HP. revert features.
  induction rows as [|item rows IH]; intros features Hacc H.
  - injection H as <-. exact Hacc.
  - simpl in H. apply bind_inr in H as (f & Hf & H).
    apply (IH (features ++ [f])); [|exact H].
    apply Forall_app. split; [exact Hacc|].
    constructor; [exact (HP _ _ Hf) | constructor].
Qed.

Lemma queryLocal_rows query wkt w features w' :
  queryLocal float_of_str db_execute db_fetchall query wkt w
    = (Ok features, w') ->
  exists rows, row_features float_of_str rows [] = inr features.
Proof.
  unfold queryLocal. intros H.
  apply mbind_inv_Ok in H as (_ & w1 & _ & H).
  apply mbind_inv_Ok in H as (_ & w2 & _ & H).
  apply mbind_inv_Ok in H as (_ & w3 & _ & H).
  apply mbind_inv_Ok in H as (rows & w4 & _ & H).
  apply lift_inv_Ok in H as [H _]. eauto.
Qed.

End QueryLocal.

(** C5. On the row [(1001, 'SRID=4326;POINT(1.5 2.5)', {'name': 'Town Hall'})]
    the feature gets the EWKT text of the centroid as [id], which is [item[1]],
    and not 1001, the [osm_id] in [item[0]]. *)
Theorem row_feature_id_is_ewkt :
  exists f,
    row_feature Mock.float_of_str Mock.node_row = inr f
    /\ Mock.node_row !! 0%nat = Some (Col (SInt 1001))
    /\ f_properties f !! "id" = Some (SStr "SRID=4326;POINT(1.5 2.5)")
    /\ f_properties f !! "id" <> Some (SInt 1001).
Proof.
  eexists. split; [reflexivity|]. split; [reflexivity|].
  split; [reflexivity | discriminate].
Qed.

Lemma queryRemote_pending_twice_then_success_witness :
  queryRemote Mock.server Mock.ZipFile underpass 3 "{}" Mock.world0 =
  (Ok Mock.geojson_bytes,
   {| w_cursor := None;
      w_gets := 4;
      w_trace :=
        [EvPost "https://raw-data-api0.hotosm.org/v1/snapshot/" "{}";
         EvGet "https://raw-data-api0.hotosm.org/v1/tasks/status/task-1";
         EvSleep 1;
         EvGet "https://raw-data-api0.hotosm.org/v1/tasks/status/task-1";
         EvSleep 1;
         EvGet "https://raw-data-api0.hotosm.org/v1/tasks/status/task-1";
         EvGet "https://example.org/export.zip";
         EvExtract "Export.geojson" "/tmp/"] |}).
Proof.
  apply (queryRemote_pending_twice_then_success Mock.server Mock.ZipFile
           underpass "https://raw-data-api0.hotosm.org/v1" "{}" "task-1"
           "https://example.org/export.zip"
           {[ "Export.geojson" := Mock.geojson_bytes ]}
           Mock.geojson_bytes 3 Mock.world0);
    first [reflexivity | simpl; lia].
Defined.

Lemma poll_leaves_only_on_success_witness :
  (forall k, status (get Mock.failed_server k "u") <> "SUCCESS")
  /\ poll Mock.failed_server 3 "u" Mock.world0 =
     (Running,
      {| w_cursor := None; w_gets := 3;
         w_trace := [EvGet "u"; EvGet "u"; EvGet "u"] |}).
Proof.
  assert (H : forall k, status (get Mock.failed_server k "u") <> "SUCCESS")
    by (intros k; discriminate).
  split; [exact H|].
  rewrite (proj2 (poll_leaves_only_on_success Mock.failed_server "u") H 3
             Mock.world0).
  reflexivity.
Defined.

(** ** GeometryAdapter and the Overpass query *)

Section Overpass.
Context {float : Type} {float_round : Round6 float}.
Variable repr_float : float -> string.
Variable polygon_centroid : list (list float) -> exc (list float).

Lemma poly_loop_tokens done rest poly :
  poly_loop repr_float (length rest)
    (map fst (done ++ rest)) (map snd (done ++ rest)) (length done) poly
  = Some (ret (poly +:+ poly_tokens repr_float rest)).
Proof.
  revert done poly. induction rest as [|[x y] rest IH]; intros done poly.
  - cbn [length poly_loop poly_tokens]. rewrite app_nil_r, length_map.
    rewrite Nat.ltb_irrefl. now rewrite str_app_nil_r.
  - cbn [length poly_loop].
    assert (Hlt : (length done <? length (map fst (done ++ (x, y) :: rest)))%nat
                  = true).
    { apply Nat.ltb_lt. rewrite length_map, length_app. cbn [length]. lia. }
    rewrite Hlt.
    assert (Hlon : map snd (done ++ (x, y) :: rest) !! length done = Some y).
    { rewrite map_app. cbn [map snd].
      rewrite <- (length_map snd done). apply list_lookup_middle. reflexivity. }
    assert (Hlat : map fst (done ++ (x, y) :: rest) !! length done = Some x).
    { rewrite map_app. cbn [map fst].
      rewrite <- (length_map fst done). apply list_lookup_middle. reflexivity. }
    rewrite Hlon, Hlat.
    replace (done ++ (x, y) :: rest) with ((done ++ [(x, y)]) ++ rest)
      by (now rewrite <- app_assoc).
    replace (S (length done)) with (length (done ++ [(x, y)]))
      by (rewrite length_app; cbn [length]; lia).
    rewrite IH. cbn [poly_tokens]. now rewrite !app_assoc_str.
Qed.

Lemma poly_tokens_trimmed ring :
  Py.slice_to_neg 1 (poly_tokens repr_float ring) = Py.join " " (map (lat_lon_pair repr_float) ring).
Proof.
  induction ring as [|[x y] ring IH]; [reflexivity|].
  cbn [poly_tokens map]. unfold lat_lon_pair at 1. cbn [fst snd].
  destruct ring as [|p ring].
  - cbn [poly_tokens map Py.join]. rewrite str_app_nil_r, ?app_assoc_str.
    rewrite !slice_to_neg_app by len_solve.
    change (Py.slice_to_neg 1 " ") with EmptyString.
    now rewrite str_app_nil_r.
  - rewrite slice_to_neg_app.
    + rewrite IH. cbn [map Py.join]. now rewrite !app_assoc_str.
    + destruct p as [x' y']. cbn [poly_tokens]. len_solve.
Qed.

(** C7, as amended. For every exterior ring of positions [(x, y)], that is
    (longitude, latitude), the loop ends and the Overpass query is
    [[out:json];way["building"](poly:"...");(._;>;);out body geom;] around the
    tokens [y x y x ...] in ring order, separated by single spaces with no
    space at the end: the latitude comes first in each pair. *)
Theorem overpass_query_latitude_first ring :
  overpass_query repr_float ring
  = Some (ret (overpass_ql (Py.join " " (map (lat_lon_pair repr_float) ring)))).
Proof.
  unfold overpass_query, coords_xy. rewrite length_map.
  pose proof (poly_loop_tokens [] ring EmptyString) as H.
  cbn [app length] in H. rewrite H. cbn [ret].
  rewrite str_app_nil_l, poly_tokens_trimmed. reflexivity.
Qed.

Lemma way_features_Forall2 ways features out :
  way_features polygon_centroid ways features = inr out ->
  exists fs, out = features ++ fs /\ Forall2 (centroid_feature polygon_centroid) ways fs.
Proof.
  revert features. induction ways as [|way ways IH]; intros features H.
  - injection H as <-. exists []. split; [now rewrite app_nil_r | constructor].
  - simpl in H. apply bind_inr in H as (f & Hf & H).
    destruct (IH _ H) as (fs & -> & Hfs). exists (f :: fs).
    split; [now rewrite <- app_assoc|]. constructor; [|exact Hfs].
    unfold way_feature in Hf. apply bind_inr in Hf as (center & Hc & Hf).
    injection Hf as <-. now exists center.
Qed.

End Overpass.

(** C7, as stated: on a ring with longitudes 10 to 11 and latitudes 50 to 51
    the tokens are not the longitude-first ones. *)
Lemma overpass_query_not_longitude_first :
  overpass_query Mock.repr_float Mock.ring
  = Some (ret (overpass_ql "50.0 10.0 50.0 11.0 51.0 11.0 50.0 10.0"))
  /\ overpass_query Mock.repr_float Mock.ring
     <> Some (ret (overpass_ql
                     (Py.join " "
                        (map (lon_lat_pair Mock.repr_float) Mock.ring)))).
Proof. split; [reflexivity | vm_compute; discriminate]. Qed.

(** ** Every raw feature is a point *)

Section PointInvariant.
Context {float : Type} {float_round : Round6 float}.
Variable float_of_str : string -> option float.
Variable repr_float : float -> string.
Context {DB : Type}.
Variable db_execute : string -> DB -> exc DB.
Variable db_fetchall : DB -> exc (list row).
Variable server : Server.
Variable ZipFile : list byte -> option (gmap string (list byte)).
Variable json_dumps : json -> string.
Variable polygon_centroid : list (list float) -> exc (list float).
Variable overpass : string -> exc (list (Way float)).

Lemma queryLocal_point2 query wkt w features w' :
  queryLocal float_of_str db_execute db_fetchall query wkt w
    = (Ok features, w') ->
  Forall point2 features.
Proof.
  intros H. destruct (queryLocal_rows _ _ _ _ _ _ _ _ H) as [rows Hrows].
  apply (row_features_Forall float_of_str _ rows [] features);
    [|constructor|exact Hrows].
  intros item f Hf.
  destruct (row_feature_inv _ _ _ Hf) as (ewkt & x & y & _ & Hg & _).
  unfold point2. rewrite Hg. split; [reflexivity | eauto].
Qed.

Lemma query_loop_point2 sql wkt result w out w' :
  (forall features, result = Some features -> Forall point2 features) ->
  query_loop float_of_str db_execute db_fetchall sql wkt result w
    = (Ok out, w') ->
  forall features, out = Some features -> Forall point2 features.
Proof.
  revert result w. induction sql as [|query sql IH]; intros result w Hres H.
  - injection H as <- <-. exact Hres.
  - cbn [query_loop] in H. apply mbind_inv_Ok in H as (r & w1 & Hq & H).
    apply (IH (Some r) w1); [|exact H].
    intros features [= <-]. exact (queryLocal_point2 _ _ _ _ _ Hq).
Qed.

Lemma centroid_features_points ways features :
  Forall2 (centroid_feature polygon_centroid) ways features ->
  Forall (has_centroid polygon_centroid) ways ->
  Forall (fun f => is_Point (f_geometry f) = true) features.
Proof.
  induction 1 as [|way f ways fs (center & Hc & _ & Hg) _ IH];
    intros Hways; [constructor|].
  apply Forall_cons in Hways as [Hway Hways].
  constructor; [|exact (IH Hways)].
  rewrite Hg. destruct center as [|c center]; [|reflexivity].
  now destruct (Hway Hc).
Qed.

Lemma way_features_points ways features :
  way_features polygon_centroid ways [] = inr features ->
  Forall2 (centroid_feature polygon_centroid) ways features
  /\ (Forall (has_centroid polygon_centroid) ways ->
      Forall (fun f => is_Point (f_geometry f) = true) features).
Proof.
  intros H. destruct (way_features_Forall2 _ _ _ _ H) as (fs & -> & Hfs).
  cbn [app]. split; [exact Hfs|].
  exact (centroid_features_points _ _ Hfs).
Qed.

(** C8, as amended. Every feature returned by [queryLocal] has a [Point]
    geometry, made of two numbers, and so has every feature of a
    [FeatureCollection] that [PostgresClient.getFeatures] hands to the tag
    cleaner.  Every feature built from a way of an Overpass result carries the
    centroid of the ring of the way: a [Point] geometry whenever that
    centroid exists, that is, is not [POINT EMPTY]; so every feature of the
    collection that [OverpassClient.getFeatures] hands to the tag cleaner has
    a [Point] geometry when the ring of each way of the answer has a
    centroid. *)
Theorem raw_features_are_points :
  (forall query wkt w features w',
      queryLocal float_of_str db_execute db_fetchall query wkt w
        = (Ok features, w') ->
      Forall point2 features)
  /\ (forall self fuel data poly wkt w features w',
        PostgresClient_collection float_of_str db_execute db_fetchall server
          ZipFile json_dumps self fuel data poly wkt w
          = (Ok (FeatureCollection features), w') ->
        Forall point2 features)
  /\ (forall ways features,
        way_features polygon_centroid ways [] = inr features ->
        Forall2 (centroid_feature polygon_centroid) ways features
        /\ (Forall (has_centroid polygon_centroid) ways ->
            Forall (fun f => is_Point (f_geometry f) = true) features))
  /\ (forall ring features,
        OverpassClient_collection repr_float polygon_centroid overpass ring
          = Some (inr (FeatureCollection features)) ->
        exists query ways,
          overpass_query repr_float ring = Some (inr query)
          /\ overpass query = inr ways
          /\ Forall2 (centroid_feature polygon_centroid) ways features
          /\ (Forall (has_centroid polygon_centroid) ways ->
              Forall (fun f => is_Point (f_geometry f) = true) features)).
Proof.
  split; [exact queryLocal_point2|]. split; [|split].
  - intros self fuel data poly wkt w features w' H.
    unfold PostgresClient_collection in H. destruct (dbshell self).
    + apply mbind_inv_Ok in H as (sql & w1 & _ & H).
      apply mbind_inv_Ok in H as (result & w2 & Hloop & H).
      apply mbind_inv_Ok in H as (r & w3 & Hr & H).
      apply lift_inv_Ok in Hr as [Hr _]. apply of_option_inr in Hr.
      injection H as <- _.
      apply (query_loop_point2 _ _ _ _ _ _ (fun _ (E : None = Some _) =>
               match E with end) Hloop _ Hr).
    + apply mbind_inv_Ok in H as (request & w1 & _ & H).
      apply mbind_inv_Ok in H as (content & w2 & _ & H).
      discriminate.
  - exact way_features_points.
  - intros ring features H. unfold OverpassClient_collection in H.
    destruct (overpass_query repr_float ring) as [query|]; [|discriminate].
    injection H as H.
    apply bind_inr in H as (q & -> & H).
    apply bind_inr in H as (ways & Hways & H).
    apply bind_inr in H as (fs & Hfs & H).
    injection H as <-. exists q, ways.
    split; [reflexivity|]. split; [exact Hways|].
    exact (way_features_points _ _ Hfs).
Qed.

End PointInvariant.

Lemma raw_features_are_points_witness :
  (fst (queryLocal Mock.float_of_str Mock.db_execute Mock.db_fetchall
          local_query boundary_wkt Mock.world_db) = Ok [node_feature]
   /\ Forall point2 [node_feature])
  /\ (way_features Mock.polygon_centroid [Mock.square] [] = inr [square_feature]
      /\ Forall (has_centroid Mock.polygon_centroid) [Mock.square]
      /\ Forall2 (centroid_feature Mock.polygon_centroid) [Mock.square]
           [square_feature]
      /\ Forall (fun f => is_Point (f_geometry f) = true) [square_feature]).
Proof.
  pose proof (raw_features_are_points Mock.float_of_str Mock.repr_float
                Mock.db_execute Mock.db_fetchall Mock.server Mock.ZipFile
                dumps_plain Mock.polygon_centroid Mock.overpass)
    as (Hlocal & _ & Hways & _).
  split.
  - assert (Hrun : fst (queryLocal Mock.float_of_str Mock.db_execute
                          Mock.db_fetchall local_query boundary_wkt
                          Mock.world_db) = Ok [node_feature])
      by (vm_compute; reflexivity).
    split; [exact Hrun|].
    destruct (queryLocal Mock.float_of_str Mock.db_execute Mock.db_fetchall
                local_query boundary_wkt Mock.world_db) as [out w'] eqn:E.
    cbn [fst] in Hrun. subst out.
    exact (Hlocal _ _ _ _ _ E).
  - assert (Hrun : way_features Mock.polygon_centroid [Mock.square] []
                   = inr [square_feature]) by (vm_compute; reflexivity).
    assert (Hcentroid : Forall (has_centroid Mock.polygon_centroid)
                          [Mock.square])
      by (repeat constructor; vm_compute; discriminate).
    split; [exact Hrun|]. split; [exact Hcentroid|].
    destruct (Hways _ _ Hrun) as [Hall Hpoints].
    split; [exact Hall | exact (Hpoints Hcentroid)].
Defined.

(** C8, as stated: a way of the Overpass answer whose list of vertices is
    empty gives the empty polygon, whose centroid is [POINT EMPTY], and the
    feature built from it has no geometry ([null]), not a [Point]; it is part
    of the collection handed to the tag cleaner. *)
Lemma raw_feature_without_geometry :
  way_features Mock.polygon_centroid [Mock.no_vertices] []
    = inr [no_vertices_feature]
  /\ OverpassClient_collection Mock.repr_float Mock.polygon_centroid
       Mock.overpass_no_vertices Mock.ring
     = Some (inr (FeatureCollection [no_vertices_feature]))
  /\ f_geometry no_vertices_feature = None
  /\ ~ Forall (fun f => is_Point (f_geometry f) = true) [no_vertices_feature].
Proof.
  split; [vm_compute; reflexivity|]. split; [vm_compute; reflexivity|].
  split; [reflexivity|].
  intros H. apply Forall_cons in H as [H _]. discriminate H.
Qed.

(** ** PostgresClient.getFeatures *)

Section PostgresClient.
Context {float : Type} {float_round : Round6 float}.
Variable float_of_str : string -> option float.
Context {DB : Type}.
Variable db_execute : string -> DB -> exc DB.
Variable db_fetchall : DB -> exc (list row).
Variable server : Server.
Variable ZipFile : list byte -> option (gmap string (list byte)).
Variable json_dumps : json -> string.
Implicit Types w : world DB.

Lemma query_loop_last sql wkt result w :
  sql <> [] ->
  mbind (query_loop float_of_str db_execute db_fetchall sql wkt result)
    (fun result =>
       mbind (lift (of_option (UnboundLocalError "result") result))
         (fun result => mret (FeatureCollection result))) w
  = last_statement_only float_of_str db_execute db_fetchall sql wkt w.
Proof.
  revert result w. induction sql as [|q sql IH]; intros result w Hne;
    [contradiction|].
  destruct sql as [|q2 sql].
  - unfold last_statement_only. cbn [query_loop removelast List.last run_discarding].
    unfold mbind, mret, lift.
    destruct (queryLocal float_of_str db_execute db_fetchall q wkt w)
      as [[r| |] w1]; reflexivity.
  - unfold last_statement_only.
    change (removelast (q :: q2 :: sql)) with (q :: removelast (q2 :: sql)).
    change (List.last (q :: q2 :: sql) EmptyString)
      with (List.last (q2 :: sql) EmptyString).
    cbn [query_loop run_discarding].
    unfold mbind at 1 2. unfold mbind at 3 4.
    destruct (queryLocal float_of_str db_execute db_fetchall q wkt w)
      as [[r| |] w1]; [|reflexivity..].
    apply (IH (Some r) w1). discriminate.
Qed.

Lemma createSQL_loop_length data tables acc sql :
  createSQL_loop data tables acc = inr sql ->
  length sql = (length acc + length tables)%nat.
Proof.
  revert acc. induction tables as [|table tables IH]; intros acc H.
  - injection H as <-. cbn [length]. lia.
  - simpl in H. apply bind_inr in H as (q & _ & H).
    rewrite (IH _ H), length_app. cbn [length]. lia.
Qed.

(** C9. With an open database session and more than one source table,
    [getFeatures] runs one statement per table and builds its
    [FeatureCollection] from the result of the last statement alone: the
    features returned for the statements before it are dropped. *)
Theorem getFeatures_keeps_last_statement_only
  self fuel data poly wkt tables sql :
  dbshell self = true ->
  dm_from data = Some tables ->
  (1 < length tables)%nat ->
  createSQL data = inr sql ->
  length sql = length tables
  /\ forall w,
      PostgresClient_collection float_of_str db_execute db_fetchall server ZipFile
        json_dumps self fuel data poly wkt w
      = last_statement_only float_of_str db_execute db_fetchall sql wkt w.
Proof.
  intros Hdb Hfrom Hlen Hsql.
  assert (Hl : length sql = length tables).
  { unfold createSQL in Hsql. rewrite Hfrom in Hsql. simpl in Hsql.
    now apply createSQL_loop_length in Hsql. }
  split; [exact Hl|]. intros w.
  unfold PostgresClient_collection. rewrite Hdb, Hsql.
  unfold mbind at 1. cbn [lift mret].
  apply query_loop_last. intros ->. cbn [length] in Hl. lia.
Qed.

(** *** Without a database session *)

Lemma net_only_mret {A} (a : A) : net_only (DB := DB) (mret a).
Proof.
  intros w out w' H. injection H as <- <-.
  repeat split; [discriminate|]. exists []. now rewrite app_nil_r.
Qed.

Lemma net_only_mraise {A} e : e <> ConnectionError -> net_only (DB := DB) (@mraise DB A e).
Proof.
  intros He w out w' H. injection H as <- <-.
  repeat split; [congruence|]. exists []. now rewrite app_nil_r.
Qed.

Lemma net_only_lift {A} (m : exc A) :
  m <> inl ConnectionError -> net_only (DB := DB) (lift m).
Proof.
  intros Hm. destruct m as [e|a]; cbn [lift].
  - apply net_only_mraise. congruence.
  - apply net_only_mret.
Qed.

Lemma net_only_of_option {A} e (o : option A) :
  e <> ConnectionError -> net_only (DB := DB) (lift (of_option e o)).
Proof.
  intros He. apply net_only_lift. unfold of_option, ret, raise.
  destruct o; [discriminate | congruence].
Qed.

Lemma net_only_emit e : no_execute e = true -> net_only (DB := DB) (emit e).
Proof.
  intros He w out w' H. injection H as <- <-. cbn [w_cursor w_trace].
  repeat split; [discriminate|]. exists [e]. split; [reflexivity|].
  constructor; [exact He | constructor].
Qed.

Lemma net_only_session_get u : net_only (DB := DB) (session_get server u).
Proof.
  intros w out w' H. injection H as <- <-. cbn [w_cursor w_trace].
  repeat split; [discriminate|]. exists [EvGet u]. split; [reflexivity|].
  constructor; [reflexivity | constructor].
Qed.

Lemma net_only_mbind {A B} (m : M DB A) (k : A -> M DB B) :
  net_only m -> (forall a, net_only (k a)) -> net_only (mbind m k).
Proof.
  intros Hm Hk w out w' H. unfold mbind in H.
  destruct (m w) as [[a|e|] w1] eqn:Em.
  - destruct (Hm _ _ _ Em) as (_ & Hc1 & tr1 & Ht1 & Hf1).
    destruct (Hk a _ _ _ H) as (Ho & Hc2 & tr2 & Ht2 & Hf2).
    repeat split; [exact Ho | congruence |].
    exists (tr1 ++ tr2). split.
    + rewrite Ht2, Ht1. now rewrite <- app_assoc.
    + apply Forall_app. now split.
  - injection H as <- <-.
    destruct (Hm _ _ _ Em) as (Ho & Hc & Ht).
    repeat split; [congruence | exact Hc | exact Ht].
  - injection H as <- <-.
    destruct (Hm _ _ _ Em) as (_ & Hc & Ht).
    repeat split; [discriminate | exact Hc | exact Ht].
Qed.

Lemma net_only_poll fuel newurl : net_only (DB := DB) (poll server fuel newurl).
Proof.
  induction fuel as [|fuel IH].
  - intros w out w' H. injection H as <- <-.
    repeat split; [discriminate|]. exists []. now rewrite app_nil_r.
  - cbn [poll]. apply net_only_mbind; [apply net_only_session_get|].
    intros result.
    destruct (String.eqb (status result) "PENDING").
    + apply net_only_mbind; [now apply net_only_emit | intros _; exact IH].
    + destruct (String.eqb (status result) "SUCCESS");
        [apply net_only_mret | exact IH].
Qed.

Lemma net_only_queryRemote self fuel query :
  net_only (DB := DB) (queryRemote server ZipFile self fuel query).
Proof.
  unfold queryRemote.
  apply net_only_mbind; [now apply net_only_of_option | intros base].
  apply net_only_mbind.
  { destruct (session self); [|now apply net_only_mraise].
    unfold session_post_task_id.
    apply net_only_mbind; [now apply net_only_emit | intros _].
    now apply net_only_of_option. }
  intros task_id.
  apply net_only_mbind; [apply net_only_poll | intros result].
  apply net_only_mbind; [now apply net_only_of_option | intros zip].
  apply net_only_mbind; [apply net_only_session_get | intros result'].
  apply net_only_mbind; [now apply net_only_of_option | intros zfp].
  apply net_only_mbind; [now apply net_only_of_option | intros data].
  apply net_only_mbind; [now apply net_only_emit | intros _].
  apply net_only_mret.
Qed.

Lemma createJson_not_ConnectionError data poly :
  createJson json_dumps data poly <> inl ConnectionError.
Proof.
  unfold createJson, createJson_features, where_tags0.
  destruct (dm_where data) as [[[[|tags ts]|]]|]; cbn; try discriminate.
  destruct (dm_from data); cbn; discriminate.
Qed.

(** C6, as amended. When [self.dbshell] is [None], [getFeatures] does not
    enter the local query path: it builds the JSON filter document and hands
    it to [queryRemote]; whatever the outcome, no SQL statement is executed,
    the cursor is left as it was, and no [ConnectionError] is raised. *)
Theorem getFeatures_without_session_goes_remote self fuel data poly wkt w :
  dbshell self = false ->
  PostgresClient_collection float_of_str db_execute db_fetchall server ZipFile
    json_dumps self fuel data poly wkt w
  = remote_collection server ZipFile json_dumps self fuel data poly w
  /\ forall out w',
      PostgresClient_collection float_of_str db_execute db_fetchall server ZipFile
        json_dumps self fuel data poly wkt w = (out, w') ->
      out <> Raise ConnectionError
      /\ w_cursor w' = w_cursor w
      /\ exists tr, w_trace w' = w_trace w ++ tr
                    /\ Forall (fun e => no_execute e = true) tr.
Proof.
  intros Hdb. unfold PostgresClient_collection. rewrite Hdb.
  split; [reflexivity|].
  assert (Hnet : net_only (DB := DB) (remote_collection (float := float) server ZipFile json_dumps self fuel data poly)).
  { unfold remote_collection. apply net_only_mbind.
    - apply net_only_lift, createJson_not_ConnectionError.
    - intros request.
      apply net_only_mbind; [apply net_only_queryRemote | intros content].
      apply net_only_mret. }
  intros out w'. apply Hnet.
Qed.

End PostgresClient.

(** ** Runs against the concrete collaborators *)

Lemma getFeatures_keeps_last_statement_only_witness :
  length buildings_sql = 2%nat
  /\ forall w,
      PostgresClient_collection Mock.float_of_str Mock.db_execute Mock.db_fetchall
        Mock.server Mock.ZipFile dumps_plain postgres 0 buildings JNull
        boundary_wkt w
      = last_statement_only Mock.float_of_str Mock.db_execute Mock.db_fetchall
          buildings_sql boundary_wkt w.
Proof.
  apply (getFeatures_keeps_last_statement_only Mock.float_of_str
           Mock.db_execute Mock.db_fetchall Mock.server Mock.ZipFile
           dumps_plain postgres 0 buildings JNull boundary_wkt
           ["nodes"; "ways_poly"] buildings_sql);
    first [reflexivity | simpl; lia].
Defined.

(** The node statement returns the Town Hall row, the way statement the
    building row; only the feature of the latter is in the collection. *)
Example getFeatures_drops_node_features :
  fst (PostgresClient_collection Mock.float_of_str Mock.db_execute
         Mock.db_fetchall Mock.server Mock.ZipFile dumps_plain postgres 0
         buildings JNull boundary_wkt Mock.world_db)
  = Ok (FeatureCollection [way_feature_of_row]).
Proof. vm_compute. reflexivity. Qed.

Lemma getFeatures_without_session_goes_remote_witness :
  dbshell underpass = false
  /\ PostgresClient_collection Mock.float_of_str Mock.db_execute Mock.db_fetchall
       Mock.server Mock.ZipFile dumps_plain underpass 3 buildings JNull
       boundary_wkt Mock.world0
     = remote_collection Mock.server Mock.ZipFile dumps_plain underpass 3
         buildings JNull Mock.world0
  /\ forall out w',
      PostgresClient_collection Mock.float_of_str Mock.db_execute Mock.db_fetchall
        Mock.server Mock.ZipFile dumps_plain underpass 3 buildings JNull
        boundary_wkt Mock.world0 = (out, w') ->
      out <> Raise ConnectionError
      /\ w_cursor w' = w_cursor Mock.world0
      /\ exists tr, w_trace w' = w_trace Mock.world0 ++ tr
                    /\ Forall (fun e => no_execute e = true) tr.
Proof.
  split; [reflexivity|].
  apply (getFeatures_without_session_goes_remote Mock.float_of_str
           Mock.db_execute Mock.db_fetchall Mock.server Mock.ZipFile
           dumps_plain underpass 3 buildings JNull boundary_wkt Mock.world0).
  reflexivity.
Defined.

(** C6, as stated: a client built for [underpass] has no database session;
    the local query path, were it entered, raises [AttributeError] on the
    missing cursor, not [ConnectionError]; and [getFeatures] does not fail at
    all, it returns the bytes fetched by the remote protocol. *)
Lemma no_session_no_ConnectionError :
  init Mock.db_connect (Some "localhost") (Some "underpass")
    = inr (underpass, None)
  /\ dbshell underpass = false
  /\ fst (queryLocal Mock.float_of_str Mock.db_execute Mock.db_fetchall
            local_query boundary_wkt Mock.world0)
     = Raise (AttributeError "execute")
  /\ fst (queryLocal Mock.float_of_str Mock.db_execute Mock.db_fetchall
            local_query boundary_wkt Mock.world0)
     <> Raise ConnectionError
  /\ fst (PostgresClient_collection Mock.float_of_str Mock.db_execute
            Mock.db_fetchall Mock.server Mock.ZipFile dumps_plain underpass 3
            buildings JNull boundary_wkt Mock.world0)
     = Ok (RawGeoJSON Mock.geojson_bytes).
Proof.
  split; [reflexivity|]. split; [reflexivity|]. split; [reflexivity|].
  split; [discriminate | vm_compute; reflexivity].
Qed.

(** After a connection that failed, the client has neither a session nor a
    [url]: the remote path stops at [self.url] before any request is sent. *)
Example getFeatures_after_failed_connection :
  init (DB := Mock.DB) (fun _ => raise (DatabaseError "connection refused"))
    (Some "localhost") (Some "osm")
    = inr ({| dbshell := false; session := false; url := None |}, None)
  /\ PostgresClient_collection Mock.float_of_str Mock.db_execute Mock.db_fetchall
       Mock.server Mock.ZipFile dumps_plain
       {| dbshell := false; session := false; url := None |} 3 buildings JNull
       boundary_wkt Mock.world0
     = (Raise (AttributeError "url"), Mock.world0).
Proof. split; reflexivity. Qed.

(** The Overpass client on the mock server: one way, one point feature. *)
Example OverpassClient_collection_square :
  OverpassClient_collection Mock.repr_float Mock.polygon_centroid Mock.overpass
    Mock.ring
  = Some (inr (FeatureCollection [square_feature])).
Proof. vm_compute. reflexivity. Qed.

(** * Further properties of the query builders *)

Section CreateSQLMore.

Lemma createSQL_select_tags_ok fields tags query q :
  createSQL_select_tags fields tags query = inr q ->
  forallb (fun tag => bool_decide (is_Some (fields !! tag))) tags = true.
Proof.
  revert query. induction tags as [|tag tags IH]; intros query H; [reflexivity|].
  simpl in H. apply bind_inr in H as (src & Hsrc & H).
  apply of_option_inr in Hsrc. simpl. rewrite (IH _ H), andb_true_r.
  apply bool_decide_eq_true. now exists src.
Qed.

Lemma createSQL_select_ok select query q :
  createSQL_select select query = inr q -> select_ok select = true.
Proof.
  unfold createSQL_select, select_ok. destruct (sel_tags select); [|reflexivity].
  intros H. apply bind_inr in H as (q' & H & _).
  exact (createSQL_select_tags_ok _ _ _ _ H).
Qed.

Lemma createSQL_query_ok data table :
  (exists q, createSQL_query data table = inr q) <-> query_ok data.
Proof.
  split.
  - intros [q H]. unfold createSQL_query in H.
    apply bind_inr in H as (select & Hsel & H). apply of_option_inr in Hsel.
    apply bind_inr in H as (q0 & Hq0 & H).
    apply bind_inr in H as (w & Hw & H). apply of_option_inr in Hw.
    rewrite Hw in H. apply bind_inr in H as (q1 & H & _).
    apply bind_inr in H as (tags & Htags & _).
    split; [|eauto]. exists select. split; [exact Hsel|].
    exact (createSQL_select_ok _ _ _ Hq0).
  - intros [(select & Hsel & Hok) (tags & Htags)].
    destruct (createSQL_select_total select "SELECT " Hok) as [q0 Hq0].
    rewrite (createSQL_query_eq data table select q0 tags Hsel Hq0 Htags).
    eauto.
Qed.

Lemma createSQL_where_tokens tags :
  createSQL_where tags EmptyString
  = fold_right (fun c acc => (c +:+ " OR ") +:+ acc) EmptyString
      (conditions tags).
Proof.
  induction tags as [|[tag value] tags IH]; [reflexivity|].
  cbn [createSQL_where]. unfold conditions. cbn [List.filter snd].
  destruct (not_null value).
  - rewrite createSQL_where_acc, IH. cbn [map fold_right fst].
    now rewrite str_app_nil_l, !app_assoc_str.
  - exact IH.
Qed.

Lemma or_tokens_trimmed conds :
  Py.slice_to_neg 4
    (fold_right (fun c acc => (c +:+ " OR ") +:+ acc) EmptyString conds)
  = Py.join " OR " conds.
Proof.
  induction conds as [|c conds IH]; [reflexivity|].
  cbn [fold_right]. destruct conds as [|c' conds].
  - cbn [fold_right Py.join]. rewrite str_app_nil_r.
    rewrite slice_to_neg_app by len_solve.
    change (Py.slice_to_neg 4 " OR ") with EmptyString.
    now rewrite str_app_nil_r.
  - rewrite slice_to_neg_app.
    + rewrite IH. cbn [Py.join]. now rewrite !app_assoc_str.
    + cbn [fold_right]. len_solve.
Qed.

Lemma createSQL_disjunction data select tables tags head :
  dm_select data = Some select ->
  createSQL_select select "SELECT " = inr head ->
  dm_from data = Some tables ->
  where_tags0 data = inr tags ->
  conditions tags <> [] ->
  createSQL data =
  inr (map (fun table =>
              head +:+ " FROM " +:+ table +:+ "  WHERE "
              +:+ Py.join " OR " (conditions tags)) tables).
Proof.
  intros Hsel Hq0 Hfrom Htags Hne.
  unfold createSQL. rewrite Hfrom. simpl.
  apply (createSQL_loop_map data tables []
           (fun table => head +:+ " FROM " +:+ table +:+ "  WHERE "
                         +:+ Py.join " OR " (conditions tags))).
  intros table.
  rewrite (createSQL_query_eq data table select head tags Hsel Hq0 Htags).
  f_equal. rewrite createSQL_where_acc, createSQL_where_tokens.
  rewrite !app_assoc_str.
  assert (Hlen : (4 <= String.length
                         (fold_right (fun c acc => (c +:+ " OR ") +:+ acc)
                            EmptyString (conditions tags)))%nat).
  { destruct (conditions tags) as [|c conds]; [contradiction|].
    cbn [fold_right]. len_solve. }
  rewrite !slice_to_neg_app by len_solve.
  now rewrite or_tokens_trimmed.
Qed.

(** X1. When at least one tag is required ["not null"], every statement of
    [createSQL] is the SELECT clause, [FROM table] and a WHERE clause that is
    the conditions [tags->>'t' IS NOT NULL] joined by [" OR "], in the order
    of the mapping, one statement per table in the order of [from]. *)
Theorem createSQL_where_is_disjunction data select tables tags :
  dm_select data = Some select ->
  select_ok select = true ->
  dm_from data = Some tables ->
  where_tags0 data = inr tags ->
  conditions tags <> [] ->
  exists head,
    createSQL_select select "SELECT " = inr head
    /\ createSQL data =
       inr (map (fun table =>
                   head +:+ " FROM " +:+ table +:+ "  WHERE "
                   +:+ Py.join " OR " (conditions tags)) tables).
Proof.
  intros Hsel Hok Hfrom Htags Hne.
  destruct (createSQL_select_total select "SELECT " Hok) as [q0 Hq0].
  exists q0. split; [exact Hq0|].
  exact (createSQL_disjunction data select tables tags q0 Hsel Hq0 Hfrom Htags
           Hne).
Qed.

Lemma createSQL_inr_inv data tables sql :
  dm_from data = Some tables ->
  createSQL data = inr sql ->
  tables = [] \/ query_ok data.
Proof.
  intros Hfrom H. unfold createSQL in H. rewrite Hfrom in H.
  destruct tables as [|table tables]; [now left | right].
  simpl in H. apply bind_inr in H as (q & Hq & _).
  apply (createSQL_query_ok data table). eauto.
Qed.

Lemma createSQL_first_query data table tables e :
  dm_from data = Some (table :: tables) ->
  createSQL_query data table = inl e ->
  createSQL data = inl e.
Proof.
  intros Hfrom Hq. unfold createSQL. rewrite Hfrom.
  cbn [of_option bind ret createSQL_loop]. now rewrite Hq.
Qed.

Lemma createSQL_select_tags_missing fields done tag rest query :
  Forall (fun t => is_Some (fields !! t)) done ->
  fields !! tag = None ->
  createSQL_select_tags fields (done ++ tag :: rest) query
  = inl (KeyError tag).
Proof.
  intros Hdone Htag. revert query.
  induction Hdone as [|t done [src Hsrc] _ IH]; intros query.
  - cbn [app createSQL_select_tags]. now rewrite Htag.
  - cbn [app createSQL_select_tags]. rewrite Hsrc. cbn [of_option bind ret].
    apply IH.
Qed.

(** X2. [createSQL] reads the entries of the data model in a fixed order and
    a missing one stops it: without [from] it raises [KeyError] on [from];
    with an empty [from] it returns no statement, whatever else the model
    holds; with a table in [from] it raises [KeyError] on [select] when that
    is missing, on the first tag listed under [select.tags] that has no entry
    in [select], then on [where] and on [where.tags] when they are missing,
    and [IndexError] when [where.tags] is an empty list. *)
Theorem createSQL_missing_entries data :
  (dm_from data = None -> createSQL data = inl (KeyError "from"))
  /\ (dm_from data = Some [] -> createSQL data = inr [])
  /\ (forall table tables,
        dm_from data = Some (table :: tables) ->
        (dm_select data = None -> createSQL data = inl (KeyError "select"))
        /\ (forall select,
              dm_select data = Some select ->
              (forall done tag rest,
                  sel_tags select = Some (done ++ tag :: rest) ->
                  Forall (fun t => is_Some (sel_fields select !! t)) done ->
                  sel_fields select !! tag = None ->
                  createSQL data = inl (KeyError tag))
              /\ (select_ok select = true ->
                  (dm_where data = None ->
                   createSQL data = inl (KeyError "where"))
                  /\ (forall w,
                        dm_where data = Some w ->
                        (where_tags w = None ->
                         createSQL data = inl (KeyError "tags"))
                        /\ (where_tags w = Some [] ->
                            createSQL data = inl IndexError))))).
Proof.
  split; [|split].
  - intros Hfrom. unfold createSQL. now rewrite Hfrom.
  - intros Hfrom. unfold createSQL. now rewrite Hfrom.
  - intros table tables Hfrom. split.
    + intros Hsel. apply (createSQL_first_query data table tables _ Hfrom).
      unfold createSQL_query. now rewrite Hsel.
    + intros select Hsel. split.
      * intros done tag rest Htags Hdone Htag.
        apply (createSQL_first_query data table tables _ Hfrom).
        unfold createSQL_query. rewrite Hsel. cbn [of_option bind ret].
        unfold createSQL_select. rewrite Htags.
        now rewrite (createSQL_select_tags_missing _ _ _ _ _ Hdone Htag).
      * intros Hok.
        destruct (createSQL_select_total select "SELECT " Hok) as [q0 Hq0].
        split.
        -- intros Hw. apply (createSQL_first_query data table tables _ Hfrom).
           unfold createSQL_query. rewrite Hsel. cbn [of_option bind ret].
           rewrite Hq0. cbn [bind]. now rewrite Hw.
        -- intros w Hw. split; intros Htags;
             apply (createSQL_first_query data table tables _ Hfrom);
             unfold createSQL_query; rewrite Hsel; cbn [of_option bind ret];
             rewrite Hq0; cbn [bind]; unfold where_tags0; rewrite Hw;
             cbn [of_option bind ret]; now rewrite Htags.
Qed.

(** X3. Whenever [createSQL] returns, it has one statement for each entry of
    [from], relation tables included, in the same order, and the statement of
    a table holds its [FROM table] clause. *)
Theorem createSQL_one_statement_per_table data tables sql :
  dm_from data = Some tables ->
  createSQL data = inr sql ->
  Forall2 (fun table stmt =>
             Py.contains (" FROM " +:+ table +:+ " ") stmt = true)
    tables sql.
Proof.
  intros Hfrom H. destruct (list_eq_nil_dec tables) as [Et|Et].
  { subst tables. unfold createSQL in H. rewrite Hfrom in H. simpl in H.
    injection H as <-. constructor. }
  assert (Hok : query_ok data).
  { destruct (createSQL_inr_inv data tables sql Hfrom H) as [->|Hok];
      [contradiction | exact Hok]. }
  destruct Hok as [(select & Hsel & Hsok) (tags & Htags)].
  destruct (createSQL_select_total select "SELECT " Hsok) as [q0 Hq0].
  set (f := fun table =>
              q0 +:+ (" FROM " +:+ table +:+ " ")
              +:+ Py.slice_to_neg 4
                    (" WHERE " +:+ createSQL_where tags EmptyString)).
  assert (Hsql : createSQL data = inr (map f tables)).
  { unfold createSQL. rewrite Hfrom. simpl.
    apply (createSQL_loop_map data tables [] f). intros table.
    rewrite (createSQL_query_eq data table select q0 tags Hsel Hq0 Htags).
    f_equal. rewrite createSQL_where_acc. unfold f.
    rewrite !app_assoc_str. now rewrite !slice_to_neg_app by len_solve. }
  rewrite Hsql in H. injection H as <-.
  clear Hfrom Hsql Et. induction tables as [|table tables IH];
    constructor; [|exact IH].
  unfold f. apply contains_app.
Qed.

(** X19. [createJson] reads [where.tags[0]] first and [from] after it, and
    never [select]: without [where] it raises [KeyError] on [where], without
    [where.tags] on [tags], on an empty [where.tags] it raises [IndexError];
    with a first mapping under [where.tags] it raises [KeyError] on [from]
    when that is missing and returns the document, serialised by
    [json.dumps], when it is there, whatever [select] holds. *)
Theorem createJson_missing_entries (json_dumps : json -> string) data boundary :
  (dm_where data = None ->
   createJson json_dumps data boundary = inl (KeyError "where"))
  /\ (forall w,
        dm_where data = Some w ->
        (where_tags w = None ->
         createJson json_dumps data boundary = inl (KeyError "tags"))
        /\ (where_tags w = Some [] ->
            createJson json_dumps data boundary = inl IndexError)
        /\ (forall tags more,
              where_tags w = Some (tags :: more) ->
              (dm_from data = None ->
               createJson json_dumps data boundary = inl (KeyError "from"))
              /\ (forall from,
                    dm_from data = Some from ->
                    exists features,
                      createJson_features data boundary = inr features
                      /\ createJson json_dumps data boundary
                         = inr (json_dumps features)))).
Proof.
  unfold createJson, createJson_features, where_tags0. split.
  - intros ->. reflexivity.
  - intros w ->. cbn [of_option bind ret]. split; [|split].
    + intros ->. reflexivity.
    + intros ->. reflexivity.
    + intros tags more ->. cbn [of_option bind ret head]. split.
      * intros ->. reflexivity.
      * intros from ->. eexists. split; reflexivity.
Qed.

(** X20. The two query builders select on the same tags: the keys of
    [join_or] in the filter document of [createJson], taken in order, are the
    tags of the conditions that [createSQL] joins by [" OR "] in the WHERE
    clause of every statement. *)
Theorem builders_select_on_the_same_tags
  data boundary select tables tags :
  dm_select data = Some select ->
  select_ok select = true ->
  dm_from data = Some tables ->
  where_tags0 data = inr tags ->
  List.NoDup (map fst tags) ->
  conditions tags <> [] ->
  exists features members head,
    createJson_features data boundary = inr features
    /\ json_path ["filters"; "tags"; "all_geometry"; "join_or"] features
       = Some (JObj members)
    /\ createSQL data =
       inr (map (fun table =>
                   head +:+ " FROM " +:+ table +:+ "  WHERE "
                   +:+ Py.join " OR "
                         (map (fun tag => "tags->>'" +:+ tag
                                          +:+ "' IS NOT NULL")
                            (map fst members))) tables).
Proof.
  intros Hsel Hok Hfrom Htags Hnd Hne.
  destruct (createSQL_select_total select "SELECT " Hok) as [q0 Hq0].
  unfold createJson_features. rewrite Htags, Hfrom. cbn [bind of_option ret].
  rewrite createJson_columns_app by exact Hnd. cbn [app].
  eexists. exists (join_or tags), q0. split; [reflexivity|].
  split; [reflexivity|].
  rewrite (createSQL_disjunction data select tables tags q0 Hsel Hq0 Hfrom
             Htags Hne).
  unfold conditions, join_or. now rewrite !map_map.
Qed.

End CreateSQLMore.

Lemma createSQL_where_is_disjunction_witness :
  exists head,
    createSQL_select {| sel_tags := Some ["name"];
                        sel_fields := {[ "name" := "tags->>'name'" ]} |}
      "SELECT " = inr head
    /\ createSQL shops_or_amenities =
       inr (map (fun table =>
                   head +:+ " FROM " +:+ table +:+ "  WHERE "
                   +:+ Py.join " OR "
                         (conditions [("amenity", "not null"); ("access", "yes");
                                      ("shop", "not null")]))
              ["nodes"; "relations"]).
Proof.
  apply (createSQL_where_is_disjunction shops_or_amenities
           {| sel_tags := Some ["name"];
              sel_fields := {[ "name" := "tags->>'name'" ]} |}
           ["nodes"; "relations"]
           [("amenity", "not null"); ("access", "yes"); ("shop", "not null")]);
    first [reflexivity | discriminate].
Defined.

Example createSQL_shops_or_amenities :
  createSQL shops_or_amenities =
  inr ["SELECT  tags->>'name' AS name, osm_id AS id, ST_AsEWKT(ST_Centroid(geom))  FROM nodes  WHERE tags->>'amenity' IS NOT NULL OR tags->>'shop' IS NOT NULL";
       "SELECT  tags->>'name' AS name, osm_id AS id, ST_AsEWKT(ST_Centroid(geom))  FROM relations  WHERE tags->>'amenity' IS NOT NULL OR tags->>'shop' IS NOT NULL"].
Proof. vm_compute. reflexivity. Qed.

Lemma createSQL_missing_entries_witness :
  createSQL no_tables = inr []
  /\ createSQL amenities_without_select = inl (KeyError "select")
  /\ createSQL unlisted_tag = inl (KeyError "addr")
  /\ createSQL no_where = inl (KeyError "where")
  /\ createSQL no_where_tags = inl (KeyError "tags")
  /\ createSQL empty_where_tags = inl IndexError.
Proof.
  split; [|split; [|split; [|split; [|split]]]].
  - apply (proj1 (proj2 (createSQL_missing_entries no_tables))). reflexivity.
  - apply (proj1 (proj2 (proj2 (createSQL_missing_entries
                                  amenities_without_select))
                    "nodes" [] eq_refl)).
    reflexivity.
  - apply (proj1 (proj2 (proj2 (proj2 (createSQL_missing_entries
                                         unlisted_tag))
                           "nodes" [] eq_refl) _ eq_refl)
             ["name"] "addr" []).
    + reflexivity.
    + constructor; [|constructor]. now eexists.
    + reflexivity.
  - apply (proj1 (proj2 (proj2 (proj2 (proj2 (createSQL_missing_entries
                                                no_where))
                                  "nodes" [] eq_refl) _ eq_refl)
                    eq_refl)).
    reflexivity.
  - apply (proj1 (proj2 (proj2 (proj2 (proj2 (proj2
              (createSQL_missing_entries no_where_tags))
              "nodes" [] eq_refl) _ eq_refl) eq_refl) _ eq_refl)).
    reflexivity.
  - apply (proj2 (proj2 (proj2 (proj2 (proj2 (proj2
              (createSQL_missing_entries empty_where_tags))
              "nodes" [] eq_refl) _ eq_refl) eq_refl) _ eq_refl)).
    reflexivity.
Defined.

Lemma createSQL_one_statement_per_table_witness :
  exists sql,
    createSQL shops_or_amenities = inr sql
    /\ Forall2 (fun table stmt =>
                  Py.contains (" FROM " +:+ table +:+ " ") stmt = true)
         ["nodes"; "relations"] sql.
Proof.
  eexists. split; [vm_compute; reflexivity|].
  apply (createSQL_one_statement_per_table shops_or_amenities);
    vm_compute; reflexivity.
Defined.

(** * Further properties of the local query engine *)

Section QueryLocalMore.
Context {float : Type} {float_round : Round6 float}.
Variable float_of_str : string -> option float.
Context {DB : Type}.
Variable db_execute : string -> DB -> exc DB.
Variable db_fetchall : DB -> exc (list row).
Variable server : Server.
Variable ZipFile : list byte -> option (gmap string (list byte)).
Variable json_dumps : json -> string.
Implicit Types w : world DB.

Lemma split_go_no_space cur x :
  no_space x = true -> Py.split_go cur x = [cur +:+ x].
Proof.
  revert cur. induction x as [|c x IH]; intros cur Hx.
  - cbn. now rewrite str_app_nil_r.
  - cbn [no_space] in Hx. apply andb_true_iff in Hx as [Hc Hx].
    cbn [Py.split_go]. apply negb_true_iff in Hc. rewrite Hc.
    rewrite (IH _ Hx). now rewrite app_assoc_str.
Qed.

Lemma split_go_space cur x r :
  no_space x = true ->
  Py.split_go cur (x +:+ String " " r) = (cur +:+ x) :: Py.split_go EmptyString r.
Proof.
  revert cur. induction x as [|c x IH]; intros cur Hx.
  - rewrite str_app_nil_l, str_app_nil_r. reflexivity.
  - cbn [no_space] in Hx. apply andb_true_iff in Hx as [Hc Hx].
    rewrite str_app_cons. cbn [Py.split_go]. apply negb_true_iff in Hc.
    rewrite Hc. rewrite (IH _ Hx). now rewrite app_assoc_str.
Qed.

Lemma slice_between prefix body close :
  String.length prefix = 16%nat ->
  String.length close = 1%nat ->
  Py.slice_from_to_neg 16 1 (prefix +:+ body +:+ close) = body.
Proof.
  intros Hp Hc. unfold Py.slice_from_to_neg.
  assert (Hdrop : Py.drop 16 (prefix +:+ body +:+ close) = body +:+ close).
  { pose proof (str_drop_app prefix (body +:+ close) 0) as H.
    now rewrite Nat.add_0_r, Hp in H. }
  rewrite Hdrop, !str_length_app, Hp, Hc.
  replace (16 + (String.length body + 1) - 1 - 16)%nat
    with (String.length body + 0)%nat by lia.
  rewrite str_take_app. cbn [Py.take]. apply str_app_nil_r.
Qed.

(** X4. The centroid text is read by position: whatever its first 16
    characters and its last one are, the two space-separated numbers that
    follow the prefix are converted by [float] and become the coordinates of
    the point, each rounded to 6 decimals by [geojson.Point], and anything
    after a further space (a third coordinate) is ignored. *)
Theorem row_feature_reads_by_position
  c0 prefix x y tail close tags more fx fy :
  String.length prefix = 16%nat ->
  String.length close = 1%nat ->
  no_space x = true ->
  no_space y = true ->
  tail = EmptyString \/ (exists t, tail = String " " t) ->
  float_of_str x = Some fx ->
  float_of_str y = Some fy ->
  exists f,
    row_feature float_of_str
      (c0 :: Col (SStr (prefix +:+ (x +:+ " " +:+ y +:+ tail) +:+ close))
          :: ColTags tags :: more) = inr f
    /\ f_geometry f = Some (Point [round6 fx; round6 fy]).
Proof.
  intros Hp Hc Hx Hy Htail Hfx Hfy. unfold row_feature.
  cbn [lookup list_lookup bind of_option ret].
  rewrite (slice_between _ _ _ Hp Hc). unfold Py.split_space.
  change (x +:+ " " +:+ y +:+ tail) with (x +:+ String " " (y +:+ tail)).
  rewrite (split_go_space _ _ _ Hx), str_app_nil_l.
  assert (Hgps : exists rest,
             Py.split_go EmptyString (y +:+ tail) = y :: rest).
  { destruct Htail as [->|[t ->]].
    - rewrite str_app_nil_r, (split_go_no_space _ _ Hy), str_app_nil_l. eauto.
    - rewrite (split_go_space _ _ _ Hy), str_app_nil_l. eauto. }
  destruct Hgps as [rest ->].
  cbn [lookup list_lookup bind of_option ret]. rewrite Hfx.
  cbn [bind of_option ret]. rewrite Hfy. cbn [bind of_option ret].
  eexists. split; reflexivity.
Qed.

(** X5. The properties of the feature of a row are the tags of the row with
    three keys set: [title] and [label] are equal, both the value of [name]
    when the row has one and [None] otherwise, and every key other than [id],
    [title] and [label] keeps the value it has in the row. *)
Theorem row_feature_title_label item f :
  row_feature float_of_str item = inr f ->
  exists tags,
    item !! 2%nat = Some (ColTags tags)
    /\ f_properties f !! "title" = f_properties f !! "label"
    /\ f_properties f !! "title" = Some (default SNone (tags !! "name"))
    /\ forall key, key <> "id" -> key <> "title" -> key <> "label" ->
                   f_properties f !! key = tags !! key.
Proof.
  unfold row_feature. intros H.
  apply bind_inr in H as (item1 & _ & H).
  apply bind_inr in H as (ewkt & _ & H).
  apply bind_inr in H as (gps0 & _ & H).
  apply bind_inr in H as (x & _ & H).
  apply bind_inr in H as (gps1 & _ & H).
  apply bind_inr in H as (y & _ & H).
  apply bind_inr in H as (item2 & Hitem2 & H). apply of_option_inr in Hitem2.
  apply bind_inr in H as (tags & Htags & H).
  destruct item2 as [v|t]; [discriminate|]. injection Htags as ->.
  injection H as <-. exists tags. cbn [f_properties].
  split; [exact Hitem2|].
  rewrite lookup_insert_ne by discriminate.
  destruct (tags !! "name") as [name|] eqn:Hname; cbn [default].
  - repeat split.
    + rewrite lookup_insert_ne by discriminate.
      now rewrite !lookup_insert_eq.
    + rewrite lookup_insert_ne by discriminate. apply lookup_insert_eq.
    + intros key H1 H2 H3. now rewrite !lookup_insert_ne by congruence.
  - repeat split.
    + rewrite lookup_insert_ne by discriminate.
      now rewrite !lookup_insert_eq.
    + rewrite lookup_insert_ne by discriminate. apply lookup_insert_eq.
    + intros key H1 H2 H3. now rewrite !lookup_insert_ne by congruence.
Qed.

Lemma row_features_Forall2 rows features out :
  row_features float_of_str rows features = inr out ->
  exists fs, out = features ++ fs
             /\ Forall2 (fun item f => row_feature float_of_str item = inr f)
                  rows fs.
Proof.
  revert features. induction rows as [|item rows IH]; intros features H.
  - injection H as <-. exists []. split; [now rewrite app_nil_r | constructor].
  - simpl in H. apply bind_inr in H as (f & Hf & H).
    destruct (IH _ H) as (fs & -> & Hfs). exists (f :: fs).
    split; [now rewrite <- app_assoc | now constructor].
Qed.

Lemma row_features_bad_row rows features item e :
  In item rows ->
  row_feature float_of_str item = inl e ->
  exists e', row_features float_of_str rows features = inl e'.
Proof.
  revert features. induction rows as [|item' rows IH]; intros features Hin He;
    [contradiction|].
  cbn [row_features]. destruct (row_feature float_of_str item') as [e'|f] eqn:Hf.
  - now exists e'.
  - cbn [bind]. destruct Hin as [->|Hin]; [congruence|]. now apply IH.
Qed.

(** The world after the three statements of [queryLocal]. *)
Lemma queryLocal_run query wkt w db0 db1 db2 db3 :
  w_cursor w = Some db0 ->
  db_execute (view_sql "ways_view" "ways_poly" wkt) db0 = inr db1 ->
  db_execute (view_sql "nodes_view" "nodes" wkt) db1 = inr db2 ->
  db_execute (rewrite_query query) db2 = inr db3 ->
  queryLocal float_of_str db_execute db_fetchall query wkt w
  = mbind (cursor_fetchall db_fetchall)
      (fun rows => lift (row_features float_of_str rows []))
      {| w_cursor := Some db3; w_gets := w_gets w;
         w_trace := w_trace w ++ local_events wkt query |}.
Proof.
  intros Hc H1 H2 H3. unfold queryLocal.
  unfold mbind at 1. unfold cursor_execute at 1. rewrite Hc, H1.
  unfold mbind at 1. unfold cursor_execute at 1. cbn [w_cursor w_gets w_trace].
  rewrite H2.
  unfold mbind at 1. unfold cursor_execute at 1. cbn [w_cursor w_gets w_trace].
  rewrite H3. unfold local_events. now rewrite <- !app_assoc.
Qed.

Lemma queryLocal_Ok_inv query wkt w features w' :
  queryLocal float_of_str db_execute db_fetchall query wkt w
    = (Ok features, w') ->
  exists db0 db1 db2 db3 rows,
    w_cursor w = Some db0
    /\ db_execute (view_sql "ways_view" "ways_poly" wkt) db0 = inr db1
    /\ db_execute (view_sql "nodes_view" "nodes" wkt) db1 = inr db2
    /\ db_execute (rewrite_query query) db2 = inr db3
    /\ db_fetchall db3 = inr rows
    /\ row_features float_of_str rows [] = inr features
    /\ w' = {| w_cursor := Some db3; w_gets := w_gets w;
               w_trace := w_trace w ++ local_events wkt query |}.
Proof.
  intros H. pose proof H as Hrun. unfold queryLocal in H.
  apply mbind_inv_Ok in H as ([] & w1 & He1 & H).
  unfold cursor_execute in He1.
  destruct (w_cursor w) as [db0|] eqn:Hc; [|discriminate].
  destruct (db_execute _ db0) as [|db1] eqn:H1; [discriminate|].
  injection He1 as <-.
  apply mbind_inv_Ok in H as ([] & w2 & He2 & H).
  unfold cursor_execute in He2. cbn [w_cursor w_gets w_trace] in He2.
  destruct (db_execute _ db1) as [|db2] eqn:H2; [discriminate|].
  injection He2 as <-.
  apply mbind_inv_Ok in H as ([] & w3 & He3 & H).
  unfold cursor_execute in He3. cbn [w_cursor w_gets w_trace] in He3.
  destruct (db_execute _ db2) as [|db3] eqn:H3; [discriminate|].
  injection He3 as <-. clear H.
  rewrite (queryLocal_run query wkt w db0 db1 db2 db3 Hc H1 H2 H3) in Hrun.
  apply mbind_inv_Ok in Hrun as (rows & w4 & Hf & Hrun).
  unfold cursor_fetchall in Hf. cbn [w_cursor] in Hf.
  destruct (db_fetchall db3) as [|rows'] eqn:Hrows; [discriminate|].
  injection Hf as <- <-. apply lift_inv_Ok in Hrun as [Hfs ->].
  exists db0, db1, db2, db3, rows'. repeat split; assumption.
Qed.

Lemma queryLocal_three_statements_aux query wkt w features w' :
  queryLocal float_of_str db_execute db_fetchall query wkt w
    = (Ok features, w') ->
  w_trace w' = w_trace w ++ local_events wkt query
  /\ w_gets w' = w_gets w.
Proof.
  intros H.
  destruct (queryLocal_Ok_inv _ _ _ _ _ H)
    as (db0 & db1 & db2 & db3 & rows & _ & _ & _ & _ & _ & _ & ->).
  split; reflexivity.
Qed.

(** X6. When [queryLocal] returns, it returns one feature for each row that
    the cursor fetched after the query, in the order of the rows. *)
Theorem queryLocal_one_feature_per_row query wkt w features w' :
  queryLocal float_of_str db_execute db_fetchall query wkt w
    = (Ok features, w') ->
  exists db rows,
    w_cursor w' = Some db
    /\ db_fetchall db = inr rows
    /\ length features = length rows
    /\ Forall2 (fun item f => row_feature float_of_str item = inr f)
         rows features.
Proof.
  intros H.
  destruct (queryLocal_Ok_inv _ _ _ _ _ H)
    as (db0 & db1 & db2 & db3 & rows & _ & _ & _ & _ & Hrows & Hfs & ->).
  destruct (row_features_Forall2 _ _ _ Hfs) as (fs & -> & HF).
  exists db3, rows. cbn [w_cursor app].
  repeat split; [exact Hrows | | exact HF].
  symmetry. exact (Forall2_length _ _ _ HF).
Qed.

(** X7. When [queryLocal] returns, it has sent exactly three statements to the
    cursor, in this order: the view of [ways_poly] inside the boundary dropped
    and created again, the same for [nodes], and the query with the table
    name replaced by the view; it has sent no HTTP request. *)
Theorem queryLocal_three_statements query wkt w features w' :
  queryLocal float_of_str db_execute db_fetchall query wkt w
    = (Ok features, w') ->
  w_trace w' = w_trace w ++ local_events wkt query
  /\ w_gets w' = w_gets w.
Proof.
  intros H.
  destruct (queryLocal_Ok_inv _ _ _ _ _ H)
    as (db0 & db1 & db2 & db3 & rows & _ & _ & _ & _ & _ & _ & ->).
  split; reflexivity.
Qed.

(** X8. One row that cannot be turned into a feature makes the whole call
    fail: when the statements run and the rows fetched hold a row on which
    the loop body raises, [queryLocal] raises and returns no feature. *)
Theorem queryLocal_bad_row_fails query wkt w db0 db1 db2 db3 rows item e :
  w_cursor w = Some db0 ->
  db_execute (view_sql "ways_view" "ways_poly" wkt) db0 = inr db1 ->
  db_execute (view_sql "nodes_view" "nodes" wkt) db1 = inr db2 ->
  db_execute (rewrite_query query) db2 = inr db3 ->
  db_fetchall db3 = inr rows ->
  In item rows ->
  row_feature float_of_str item = inl e ->
  exists e' w',
    queryLocal float_of_str db_execute db_fetchall query wkt w
    = (Raise e', w').
Proof.
  intros Hc H1 H2 H3 Hrows Hin He.
  rewrite (queryLocal_run query wkt w db0 db1 db2 db3 Hc H1 H2 H3).
  unfold mbind, cursor_fetchall. cbn [w_cursor]. rewrite Hrows.
  destruct (row_features_bad_row rows [] item e Hin He) as [e' ->].
  cbn [lift mraise]. eauto.
Qed.

End QueryLocalMore.

(** * Further properties of PostgresClient.getFeatures *)

Section PostgresMore.
Context {float : Type} {float_round : Round6 float}.
Variable float_of_str : string -> option float.
Context {DB : Type}.
Variable db_connect : string -> exc (connection DB).
Variable db_execute : string -> DB -> exc DB.
Variable db_fetchall : DB -> exc (list row).
Variable server : Server.
Variable ZipFile : list byte -> option (gmap string (list byte)).
Variable json_dumps : json -> string.
Variable Cleaned : Type.
Variable cleanData : string -> collection float -> exc Cleaned.
Implicit Types w : world DB.

Lemma query_loop_trace sql wkt result w out w' :
  query_loop float_of_str db_execute db_fetchall sql wkt result w
    = (Ok out, w') ->
  w_trace w' = w_trace w ++ flat_map (local_events wkt) sql
  /\ w_gets w' = w_gets w
  /\ (sql <> [] -> exists features, out = Some features).
Proof.
  revert result w. induction sql as [|query sql IH]; intros result w H.
  - injection H as <- <-. cbn [flat_map]. rewrite app_nil_r.
    repeat split. intros Hne. contradiction.
  - cbn [query_loop] in H. apply mbind_inv_Ok in H as (r & w1 & Hq & H).
    destruct (queryLocal_three_statements_aux _ _ _ _ _ _ _ _ Hq) as [Ht Hg].
    destruct (IH _ _ H) as (Ht' & Hg' & Hout).
    cbn [flat_map]. rewrite Ht', Ht, Hg', Hg, <- app_assoc.
    repeat split. intros _.
    destruct sql as [|query' sql]; [|apply Hout; discriminate].
    injection H as <- _. eauto.
Qed.

(** X9. With a database session, a call of [getFeatures] that reaches the tag
    cleaner has run, for each statement of [createSQL] in order, the two view
    statements and the rewritten statement, has sent no HTTP request, and
    hands a [FeatureCollection] to the cleaner. *)
Theorem getFeatures_local_statements self fuel data poly wkt w c w' :
  dbshell self = true ->
  PostgresClient_collection float_of_str db_execute db_fetchall server ZipFile
    json_dumps self fuel data poly wkt w = (Ok c, w') ->
  exists sql features,
    createSQL data = inr sql
    /\ c = FeatureCollection features
    /\ w_trace w' = w_trace w ++ flat_map (local_events wkt) sql
    /\ w_gets w' = w_gets w.
Proof.
  intros Hdb H. unfold PostgresClient_collection in H. rewrite Hdb in H.
  apply mbind_inv_Ok in H as (sql & w1 & Hsql & H).
  apply lift_inv_Ok in Hsql as [Hsql ->].
  apply mbind_inv_Ok in H as (result & w2 & Hloop & H).
  apply mbind_inv_Ok in H as (features & w3 & Hres & H).
  apply lift_inv_Ok in Hres as [_ ->]. injection H as <- <-.
  destruct (query_loop_trace _ _ _ _ _ _ Hloop) as (Ht & Hg & _).
  exists sql, features. repeat split; assumption.
Qed.

(** X10. With a database session and an empty [from] list, [getFeatures]
    raises [UnboundLocalError] on [result]: no statement is run and nothing
    reaches the tag cleaner. *)
Theorem getFeatures_empty_from self fuel data poly wkt w :
  dbshell self = true ->
  dm_from data = Some [] ->
  PostgresClient_collection float_of_str db_execute db_fetchall server ZipFile
    json_dumps self fuel data poly wkt w
  = (Raise (UnboundLocalError "result"), w).
Proof.
  intros Hdb Hfrom. unfold PostgresClient_collection, createSQL.
  rewrite Hdb, Hfrom. reflexivity.
Qed.

End PostgresMore.

Section OutputFile.
Context {float : Type} {float_round : Round6 float}.
Variable float_of_str : string -> option float.
Variable repr_float : float -> string.
Context {DB : Type}.
Variable db_execute : string -> DB -> exc DB.
Variable db_fetchall : DB -> exc (list row).
Variable server : Server.
Variable ZipFile : list byte -> option (gmap string (list byte)).
Variable json_dumps : json -> string.
Variable polygon_centroid : list (list float) -> exc (list float).
Variable overpass : string -> exc (list (Way float)).
Variable Cleaned : Type.
Variable cleanData : string -> collection float -> exc Cleaned.
Variable open_w : string -> exc unit.
Variable dump : Cleaned -> string * option exn.
Implicit Types w : world DB.














End OutputFile.

(** * Further properties of the remote snapshot protocol *)

Section QueryRemoteMore.
Context {float : Type} {float_round : Round6 float}.
Variable float_of_str : string -> option float.
Context {DB : Type}.
Variable db_connect : string -> exc (connection DB).
Variable db_execute : string -> DB -> exc DB.
Variable db_fetchall : DB -> exc (list row).
Variable server : Server.
Variable ZipFile : list byte -> option (gmap string (list byte)).
Variable json_dumps : json -> string.
Implicit Types w : world DB.

Lemma passes_S newurl g n :
  passes server newurl g (S n)
  = pass_events newurl (get server g newurl) ++ passes server newurl (S g) n.
Proof. reflexivity. Qed.

Lemma passes_counts newurl g n :
  length (List.filter is_sleep (passes server newurl g n))
    = pending_answers server newurl g n
  /\ length (List.filter is_get (passes server newurl g n)) = n.
Proof.
  revert g. induction n as [|n IH]; intros g; [split; reflexivity|].
  rewrite passes_S, !List.filter_app, !length_app.
  destruct (IH (S g)) as [-> ->]. unfold pending_answers, pass_events.
  cbn [seq List.filter].
  destruct (String.eqb (status (get server g newurl)) "PENDING");
    split; reflexivity.
Qed.

Lemma after_passes_eq newurl n w :
  after_passes server newurl n w
  = {| w_cursor := w_cursor w; w_gets := w_gets w + n;
       w_trace := w_trace w ++ passes server newurl (w_gets w) n |}.
Proof. reflexivity. Qed.

(** X12. Whenever the poll loop returns, it returns the first answer with
    status SUCCESS: the [n] answers before it were not SUCCESS, the loop has
    sent [n + 1] GET requests and has slept once, for 1, after each answer
    with status PENDING and not after any other. *)
Theorem poll_returns_first_success fuel newurl w result w' :
  poll server fuel newurl w = (Ok result, w') ->
  exists n,
    (n < fuel)%nat
    /\ result = get server (w_gets w + n) newurl
    /\ status result = "SUCCESS"
    /\ (forall k, (w_gets w <= k < w_gets w + n)%nat ->
                  status (get server k newurl) <> "SUCCESS")
    /\ w_gets w' = (w_gets w + n + 1)%nat
    /\ w_trace w'
       = w_trace w ++ passes server newurl (w_gets w) n ++ [EvGet newurl]
    /\ length (List.filter is_sleep (passes server newurl (w_gets w) n))
       = pending_answers server newurl (w_gets w) n.
Proof.
  revert w. induction fuel as [|fuel IH]; intros w H; [discriminate|].
  destruct (String.eqb_spec (status (get server (w_gets w) newurl)) "SUCCESS")
    as [Hs|Hs].
  - rewrite (poll_success server newurl 0 (S fuel) w) in H;
      [|intros k Hk; lia | now rewrite Nat.add_0_r | lia].
    rewrite after_passes_0 in H. injection H as <- <-.
    exists 0%nat. cbn [w_gets w_trace]. rewrite Nat.add_0_r.
    repeat split; try reflexivity; try lia; try exact Hs.
  - rewrite poll_step in H by exact Hs.
    destruct (IH _ H) as (n & Hn & Hr & Hst & Hno & Hg & Ht & Hc).
    rewrite after_passes_eq in Hr, Hno, Hg, Ht. cbn [w_gets w_trace] in *.
    exists (S n).
    replace (w_gets w + S n)%nat with (w_gets w + 1 + n)%nat by lia.
    repeat split; try assumption; try lia.
    + intros k Hk. destruct (Nat.eq_dec k (w_gets w)) as [->|Hne];
        [exact Hs | apply Hno; lia].
    + rewrite Ht, (passes_S newurl (w_gets w) n).
      change (passes server newurl (w_gets w) 1)
        with (pass_events newurl (get server (w_gets w) newurl) ++ []).
      rewrite app_nil_r, Nat.add_1_r, <- !app_assoc. reflexivity.
    + apply passes_counts.
Qed.


(** X14. Before the loop, [queryRemote] raises without sending any GET when
    the client has no [url] or no [session] attribute (nothing is sent at
    all), and when the answer to the POST has no [task_id] (only the POST was
    sent). *)
Theorem queryRemote_fails_before_polling self fuel query w :
  (url self = None ->
   queryRemote server ZipFile self fuel query w
   = (Raise (AttributeError "url"), w))
  /\ (forall base,
        url self = Some base -> session self = false ->
        queryRemote server ZipFile self fuel query w
        = (Raise (AttributeError "session"), w))
  /\ (forall base,
        url self = Some base -> session self = true ->
        post server (base +:+ "/snapshot/") query = None ->
        queryRemote server ZipFile self fuel query w
        = (Raise (KeyError "task_id"),
           {| w_cursor := w_cursor w; w_gets := w_gets w;
              w_trace := w_trace w
                         ++ [EvPost (base +:+ "/snapshot/") query] |})).
Proof.
  unfold queryRemote. split; [|split].
  - intros Hurl. now rewrite Hurl.
  - intros base Hurl Hsess. now rewrite Hurl, Hsess.
  - intros base Hurl Hsess Hpost. rewrite Hurl, Hsess.
    unfold session_post_task_id, mbind, emit, lift.
    cbn [of_option ret mret]. rewrite Hpost. reflexivity.
Qed.

End QueryRemoteMore.

(** * Further properties of the clients as a whole *)

Section ClientsMore.
Context {float : Type} {float_round : Round6 float}.
Variable float_of_str : string -> option float.
Variable repr_float : float -> string.
Context {DB : Type}.
Variable db_connect : string -> exc (connection DB).
Variable db_execute : string -> DB -> exc DB.
Variable db_fetchall : DB -> exc (list row).
Variable server : Server.
Variable ZipFile : list byte -> option (gmap string (list byte)).
Variable json_dumps : json -> string.
Variable polygon_centroid : list (list float) -> exc (list float).
Variable overpass : string -> exc (list (Way float)).
Implicit Types w : world DB.

(** X15. A client is built in one of four states: for [underpass], with a
    session and the URL of the raw data API and no database; after a refused
    connection, with none of them; after a connection on which the cursor
    was made, with the connection and the cursor and neither session nor
    URL; and, since [dbshell] is assigned before [cursor()] is called inside
    the [try], after a connection on which [autocommit] or [cursor()] raised,
    with the connection and no cursor.  A cursor is never there without a
    connection.  Building the client raises only for a missing database
    name, [TypeError]: what [connect] and [cursor()] raise is caught. *)
Theorem init_client_states dbhost :
  init db_connect dbhost None = inl TypeError
  /\ (forall dbname e,
        init db_connect dbhost dbname = inl e ->
        dbname = None /\ e = TypeError)
  /\ (forall dbname self cursor,
        init db_connect dbhost dbname = inr (self, cursor) ->
        (is_Some cursor -> dbshell self = true)
        /\ (session self = true <-> dbname = Some "underpass")
        /\ (is_Some (url self) <-> session self = true)
        /\ (dbshell self = true -> session self = false)
        /\ (dbshell self = true ->
            exists connect conn,
              db_connect connect = inr conn
              /\ cursor = match conn_cursor conn with
                          | inr db => Some db
                          | inl _ => None
                          end)
        /\ (dbshell self = false ->
            dbname = Some "underpass"
            \/ exists connect e, db_connect connect = inl e))
  /\ (forall name conn e,
        name <> "underpass" ->
        (forall connect, db_connect connect = inr conn) ->
        conn_cursor conn = inl e ->
        init db_connect dbhost (Some name)
        = inr ({| dbshell := true; session := false; url := None |}, None)).
Proof.
  split; [reflexivity|]. split; [|split].
  - intros dbname e H. unfold init in H.
    destruct dbname as [name|]; [|injection H as <-; now split].
    destruct (String.eqb name "underpass"); [discriminate|].
    cbn [of_option bind ret] in H.
    destruct (db_connect _) as [e'|conn]; [discriminate|].
    destruct (conn_cursor conn); discriminate.
  - intros dbname self cursor H. unfold init in H.
    destruct dbname as [name|]; [|discriminate].
    destruct (String.eqb_spec name "underpass") as [->|Hname].
    + injection H as <- <-. cbn.
      repeat split; try easy; try (intros [x Hx]; discriminate); eauto.
    + cbn [of_option bind ret] in H.
      destruct (db_connect _) as [e|conn] eqn:Hconn.
      * injection H as <- <-. cbn.
        repeat split; try easy; try (intros [x Hx]; discriminate);
          try (intros [= ->]; contradiction); eauto.
      * destruct (conn_cursor conn) as [e|db] eqn:Hcur;
          injection H as <- <-; cbn;
          repeat split; try easy; try (intros [x Hx]; discriminate);
          try (intros [= ->]; contradiction);
          intros _; eexists _, conn; (split; [exact Hconn|]);
          now rewrite Hcur.
  - intros name conn e Hname Hconn Hcur. unfold init.
    apply String.eqb_neq in Hname. rewrite Hname.
    cbn [of_option bind ret]. now rewrite Hconn, Hcur.
Qed.

(** X16. For a client built against a database that cannot be reached, the
    fallback of [getFeatures] does not reach the remote API: once the filter
    document is built, [queryRemote] stops on the missing [url] attribute
    with [AttributeError], before any request is sent. *)
Theorem getFeatures_after_failed_connect
  dbhost name self cursor fuel data poly wkt request w :
  name <> "underpass" ->
  (forall connect, exists e, db_connect connect = inl e) ->
  init db_connect dbhost (Some name) = inr (self, cursor) ->
  createJson json_dumps data poly = inr request ->
  cursor = None
  /\ PostgresClient_collection float_of_str db_execute db_fetchall server
       ZipFile json_dumps self fuel data poly wkt w
     = (Raise (AttributeError "url"), w).
Proof.
  intros Hname Hdown Hinit Hreq. unfold init in Hinit.
  apply String.eqb_neq in Hname. rewrite Hname in Hinit.
  cbn [of_option bind ret] in Hinit.
  match type of Hinit with
  | context [db_connect ?c] => destruct (Hdown c) as [e He]; rewrite He in Hinit
  end.
  injection Hinit as <- <-. split; [reflexivity|].
  unfold PostgresClient_collection. cbn [dbshell]. rewrite Hreq. reflexivity.
Qed.

(** X17. On the remote path, a call of [getFeatures] that reaches the tag
    cleaner has posted to [<url>/snapshot/] the serialized filter document of
    the data model and the boundary, as its first request, and hands to the
    cleaner the bytes of the archive member, not a [FeatureCollection]; its
    last event is the extraction of [Export.geojson]. *)
Theorem getFeatures_posts_filter_document self fuel data poly wkt w c w' :
  dbshell self = false ->
  PostgresClient_collection float_of_str db_execute db_fetchall server ZipFile
    json_dumps self fuel data poly wkt w = (Ok c, w') ->
  exists features base task_id bytes tr,
    createJson_features data poly = inr features
    /\ url self = Some base
    /\ post server (base +:+ "/snapshot/") (json_dumps features) = Some task_id
    /\ c = RawGeoJSON bytes
    /\ w_trace w'
       = w_trace w ++ [EvPost (base +:+ "/snapshot/") (json_dumps features)]
         ++ tr ++ [EvExtract "Export.geojson" "/tmp/"]
    /\ Forall (fun e => no_execute e = true) tr.
Proof.
  intros Hdb H. unfold PostgresClient_collection in H. rewrite Hdb in H.
  apply mbind_inv_Ok in H as (request & w0 & Hreq & H).
  apply lift_inv_Ok in Hreq as [Hreq ->].
  unfold createJson in Hreq. apply bind_inr in Hreq as (features & Hf & Hreq).
  injection Hreq as <-.
  apply mbind_inv_Ok in H as (bytes & w5 & H & Hc). injection Hc as <- <-.
  unfold queryRemote in H.
  apply mbind_inv_Ok in H as (base & w0 & Hbase & H).
  apply lift_inv_Ok in Hbase as [Hbase ->]. apply of_option_inr in Hbase.
  apply mbind_inv_Ok in H as (task_id & w1 & Hpost & H).
  destruct (session self); [|discriminate].
  unfold session_post_task_id in Hpost.
  apply mbind_inv_Ok in Hpost as ([] & w1' & Hemit & Hpost).
  injection Hemit as <-.
  apply lift_inv_Ok in Hpost as [Hpost ->]. apply of_option_inr in Hpost.
  apply mbind_inv_Ok in H as (result & w2 & Hpoll & H).
  apply mbind_inv_Ok in H as (zip & w2' & Hzip & H).
  apply lift_inv_Ok in Hzip as [_ ->].
  apply mbind_inv_Ok in H as (r & w3 & Hget & H). injection Hget as _ <-.
  apply mbind_inv_Ok in H as (zfp & w3' & Hzfp & H).
  apply lift_inv_Ok in Hzfp as [_ ->].
  apply mbind_inv_Ok in H as (data' & w3'' & Hdata & H).
  apply lift_inv_Ok in Hdata as [_ ->].
  apply mbind_inv_Ok in H as ([] & w4 & Hemit & H).
  injection Hemit as <-. injection H as <- <-.
  destruct (net_only_poll server fuel _ _ _ _ Hpoll)
    as (_ & _ & tr & Ht & Htr).
  cbn [w_trace] in *.
  exists features, base, task_id, data', (tr ++ [EvGet zip]).
  repeat split; try assumption.
  - rewrite Ht, <- !app_assoc. reflexivity.
  - apply Forall_app. split; [exact Htr | now constructor].
Qed.

(** X18. The collection that [OverpassClient.getFeatures] hands to the tag
    cleaner has one feature for each way that the Overpass server returned
    for the query built from the ring, in the order of the ways; each has as
    geometry the centroid of the ring of the way, as a point with its
    coordinates rounded to 6 decimals, or no geometry when that centroid is
    [POINT EMPTY], and carries the tags of the way unchanged, with no [id],
    [title] or [label] added. *)
Theorem OverpassClient_one_feature_per_way ring features :
  OverpassClient_collection repr_float polygon_centroid overpass ring
    = Some (inr (FeatureCollection features)) ->
  exists ways,
    overpass (overpass_ql (Py.join " " (map (lat_lon_pair repr_float) ring)))
      = inr ways
    /\ length features = length ways
    /\ Forall2 (centroid_feature polygon_centroid) ways features
    /\ Forall2 (fun way f => f_properties f = way_tags way) ways features.
Proof.
  unfold OverpassClient_collection, overpass_query, coords_xy.
  rewrite length_map.
  pose proof (poly_loop_tokens repr_float [] ring EmptyString) as Hloop.
  cbn [app length] in Hloop. rewrite Hloop. cbn [ret]. intros H.
  injection H as H. cbn [bind] in H.
  apply bind_inr in H as (ways & Hways & H).
  apply bind_inr in H as (fs & Hfs & H). injection H as <-.
  rewrite str_app_nil_l, poly_tokens_trimmed in Hways.
  destruct (way_features_Forall2 _ _ _ _ Hfs) as (fs' & -> & HF).
  cbn [app]. exists ways. repeat split.
  - exact Hways.
  - symmetry. exact (Forall2_length _ _ _ HF).
  - exact HF.
  - clear Hfs Hways.
    induction HF as [|way f ways fs' (center & _ & Hp & _) _ IH];
      constructor; [exact Hp | exact IH].
Qed.

End ClientsMore.

(** * Runs of the further properties *)

Lemma createJson_missing_entries_witness :
  createJson dumps_plain no_where JNull = inl (KeyError "where")
  /\ createJson dumps_plain no_where_tags JNull = inl (KeyError "tags")
  /\ createJson dumps_plain empty_where_tags JNull = inl IndexError
  /\ createJson dumps_plain where_without_from JNull = inl (KeyError "from")
  /\ exists features,
       createJson_features where_only JNull = inr features
       /\ createJson dumps_plain where_only JNull
          = inr (dumps_plain features).
Proof.
  split; [|split; [|split; [|split]]].
  - apply (proj1 (createJson_missing_entries dumps_plain no_where JNull)).
    reflexivity.
  - apply (proj1 (proj2 (createJson_missing_entries dumps_plain no_where_tags
                           JNull) _ eq_refl)).
    reflexivity.
  - apply (proj1 (proj2 (proj2 (createJson_missing_entries dumps_plain
                                  empty_where_tags JNull) _ eq_refl))).
    reflexivity.
  - apply (proj1 (proj2 (proj2 (proj2 (createJson_missing_entries dumps_plain
                                         where_without_from JNull)
                                  _ eq_refl))
                    [("amenity", "not null")] [] eq_refl)).
    reflexivity.
  - apply (proj2 (proj2 (proj2 (proj2 (createJson_missing_entries dumps_plain
                                         where_only JNull)
                                  _ eq_refl))
                    [("amenity", "not null")] [] eq_refl)
             ["ways_poly"]).
    reflexivity.
Defined.

Lemma builders_select_on_the_same_tags_witness :
  exists features members head,
    createJson_features shops_or_amenities JNull = inr features
    /\ json_path ["filters"; "tags"; "all_geometry"; "join_or"] features
       = Some (JObj members)
    /\ createSQL shops_or_amenities =
       inr (map (fun table =>
                   head +:+ " FROM " +:+ table +:+ "  WHERE "
                   +:+ Py.join " OR "
                         (map (fun tag => "tags->>'" +:+ tag
                                          +:+ "' IS NOT NULL")
                            (map fst members)))
              ["nodes"; "relations"]).
Proof.
  apply (builders_select_on_the_same_tags shops_or_amenities JNull
           {| sel_tags := Some ["name"];
              sel_fields := {[ "name" := "tags->>'name'" ]} |}
           ["nodes"; "relations"]
           [("amenity", "not null"); ("access", "yes"); ("shop", "not null")]);
    try reflexivity.
  - repeat constructor; simpl; intuition discriminate.
  - discriminate.
Defined.

(** The concrete rounding on some decimals. *)
Example round6_text_decimals :
  map Mock.round6_text
    ["1.1234567"; "2.5"; "-0.9999996"; "3.0000004"; "99.9999999"]
  = ["1.123457"; "2.5"; "-1.0"; "3.0"; "100.0"].
Proof. vm_compute. reflexivity. Qed.

Lemma row_feature_reads_by_position_witness :
  exists f,
    row_feature Mock.float_of_str row_3d = inr f
    /\ f_geometry f = Some (Point ["1.123457"; "2.5"]).
Proof.
  destruct (row_feature_reads_by_position Mock.float_of_str (Col (SInt 7))
              "SRID=4326;POINT(" "1.1234567" "2.5" " 9.0" ")" ∅ []
              "1.1234567" "2.5") as (f & Hf & Hg);
    try reflexivity.
  { right. now exists "9.0". }
  exists f. split; [exact Hf|]. rewrite Hg. vm_compute. reflexivity.
Defined.

Lemma row_feature_title_label_witness :
  exists tags,
    Mock.node_row !! 2%nat = Some (ColTags tags)
    /\ f_properties node_feature !! "title"
       = f_properties node_feature !! "label"
    /\ f_properties node_feature !! "title"
       = Some (default SNone (tags !! "name"))
    /\ forall key, key <> "id" -> key <> "title" -> key <> "label" ->
                   f_properties node_feature !! key = tags !! key.
Proof.
  apply (row_feature_title_label Mock.float_of_str Mock.node_row node_feature).
  vm_compute. reflexivity.
Defined.

Lemma local_run_Ok : fst local_run = Ok [node_feature].
Proof. vm_compute. reflexivity. Qed.

Lemma queryLocal_one_feature_per_row_witness :
  exists db rows,
    w_cursor (snd local_run) = Some db
    /\ Mock.db_fetchall db = inr rows
    /\ length [node_feature] = length rows
    /\ Forall2 (fun item f => row_feature Mock.float_of_str item = inr f)
         rows [node_feature].
Proof.
  pose proof local_run_Ok as Hrun.
  destruct local_run as [out w'] eqn:E. cbn [fst snd] in *. subst out.
  exact (queryLocal_one_feature_per_row Mock.float_of_str Mock.db_execute
           Mock.db_fetchall _ _ _ _ _ E).
Defined.

Lemma queryLocal_three_statements_witness :
  w_trace (snd local_run)
    = w_trace Mock.world_db ++ local_events boundary_wkt local_query
  /\ w_gets (snd local_run) = w_gets Mock.world_db.
Proof.
  pose proof local_run_Ok as Hrun.
  destruct local_run as [out w'] eqn:E. cbn [fst snd] in *. subst out.
  exact (queryLocal_three_statements Mock.float_of_str Mock.db_execute
           Mock.db_fetchall _ _ _ _ _ E).
Defined.

Lemma queryLocal_bad_row_fails_witness :
  exists e' w',
    queryLocal Mock.float_of_str Mock.db_execute Mock.db_fetchall_null
      local_query boundary_wkt Mock.world_db
    = (Raise e', w').
Proof.
  apply (queryLocal_bad_row_fails Mock.float_of_str Mock.db_execute
           Mock.db_fetchall_null local_query boundary_wkt Mock.world_db
           EmptyString
           (view_sql "ways_view" "ways_poly" boundary_wkt)
           (view_sql "nodes_view" "nodes" boundary_wkt)
           (rewrite_query local_query)
           [Mock.node_row; Mock.null_row] Mock.null_row TypeError);
    try reflexivity.
  right. now left.
Defined.

Lemma postgres_run_Ok :
  fst postgres_run = Ok (FeatureCollection [way_feature_of_row]).
Proof. vm_compute. reflexivity. Qed.

Lemma getFeatures_local_statements_witness :
  exists sql features,
    createSQL buildings = inr sql
    /\ FeatureCollection [way_feature_of_row] = FeatureCollection features
    /\ w_trace (snd postgres_run)
       = w_trace Mock.world_db ++ flat_map (local_events boundary_wkt) sql
    /\ w_gets (snd postgres_run) = w_gets Mock.world_db.
Proof.
  pose proof postgres_run_Ok as Hrun.
  destruct postgres_run as [out w'] eqn:E. cbn [fst snd] in *. subst out.
  apply (getFeatures_local_statements Mock.float_of_str Mock.db_execute
           Mock.db_fetchall Mock.server Mock.ZipFile dumps_plain postgres 0
           buildings JNull boundary_wkt Mock.world_db _ _ eq_refl E).
Defined.

Lemma getFeatures_empty_from_witness :
  PostgresClient_collection Mock.float_of_str Mock.db_execute Mock.db_fetchall
    Mock.server Mock.ZipFile dumps_plain postgres 0 no_tables JNull
    boundary_wkt Mock.world_db
  = (Raise (UnboundLocalError "result"), Mock.world_db).
Proof.
  apply (getFeatures_empty_from Mock.float_of_str Mock.db_execute
           Mock.db_fetchall Mock.server Mock.ZipFile dumps_plain postgres 0
           no_tables JNull boundary_wkt Mock.world_db);
    reflexivity.
Defined.



Example getFeatures_run_writes_the_file :
  skipn 6 (w_trace (snd getFeatures_run))
  = [EvOpen "buildings.geojson";
     EvDump "buildings.geojson" written_text].
Proof. vm_compute. reflexivity. Qed.

(** A writer stopped by an exception leaves the file created, holding what
    was written, and [getFeatures] raises. *)
Example getFeatures_stopped_dump :
  fst getFeatures_stopped_run = Raise TypeError
  /\ skipn 6 (w_trace (snd getFeatures_stopped_run))
     = [EvOpen "buildings.geojson"; EvDump "buildings.geojson" "{"].
Proof. split; vm_compute; reflexivity. Qed.

(** A file that cannot be opened: nothing is written. *)
Example getFeatures_open_denied :
  fst getFeatures_denied_run = Raise (OSError "Permission denied")
  /\ Forall (fun e => no_dump e = true)
       (w_trace (snd getFeatures_denied_run)).
Proof. split; [vm_compute; reflexivity | vm_compute; repeat constructor]. Qed.

Lemma poll_run_Ok : fst poll_run = Ok Mock.success.
Proof. vm_compute. reflexivity. Qed.

Lemma poll_returns_first_success_witness :
  exists n,
    (n < 5)%nat
    /\ Mock.success = get Mock.server (w_gets Mock.world0 + n) "u"
    /\ status Mock.success = "SUCCESS"
    /\ (forall k, (w_gets Mock.world0 <= k < w_gets Mock.world0 + n)%nat ->
                  status (get Mock.server k "u") <> "SUCCESS")
    /\ w_gets (snd poll_run) = (w_gets Mock.world0 + n + 1)%nat
    /\ w_trace (snd poll_run)
       = w_trace Mock.world0
         ++ passes Mock.server "u" (w_gets Mock.world0) n ++ [EvGet "u"]
    /\ length (List.filter is_sleep
                 (passes Mock.server "u" (w_gets Mock.world0) n))
       = pending_answers Mock.server "u" (w_gets Mock.world0) n.
Proof.
  pose proof poll_run_Ok as Hrun.
  destruct poll_run as [out w'] eqn:E. cbn [fst snd] in *. subst out.
  exact (poll_returns_first_success Mock.server 5 "u" Mock.world0 _ _ E).
Defined.


Lemma queryRemote_fails_before_polling_witness :
  queryRemote Mock.no_task_server Mock.ZipFile underpass 3 "{}" Mock.world0
  = (Raise (KeyError "task_id"),
     {| w_cursor := None; w_gets := 0;
        w_trace :=
          [EvPost "https://raw-data-api0.hotosm.org/v1/snapshot/" "{}"] |}).
Proof.
  apply (proj2 (proj2 (queryRemote_fails_before_polling Mock.no_task_server
                         Mock.ZipFile underpass 3 "{}" Mock.world0))
           "https://raw-data-api0.hotosm.org/v1");
    reflexivity.
Defined.

Lemma init_client_states_witness :
  init Mock.db_no_cursor (Some "localhost") (Some "osm")
  = inr (postgres, None)
  /\ (is_Some (Some EmptyString) -> dbshell postgres = true)
  /\ (session postgres = true <-> Some "osm" = Some "underpass")
  /\ (is_Some (url postgres) <-> session postgres = true)
  /\ (dbshell postgres = true -> session postgres = false)
  /\ (dbshell postgres = true ->
      exists connect conn,
        Mock.db_connect connect = inr conn
        /\ Some EmptyString = match conn_cursor conn with
                              | inr db => Some db
                              | inl _ => None
                              end)
  /\ (dbshell postgres = false ->
      Some "osm" = Some "underpass"
      \/ exists connect e, Mock.db_connect connect = inl e).
Proof.
  split.
  - apply (proj2 (proj2 (proj2 (init_client_states Mock.db_no_cursor
                                  (Some "localhost"))))
             "osm"
             {| conn_cursor :=
                  raise (DatabaseError "connection already closed") |}
             (DatabaseError "connection already closed"));
      [discriminate | reflexivity | reflexivity].
  - apply (proj1 (proj2 (proj2 (init_client_states Mock.db_connect
                                  (Some "localhost"))))
             (Some "osm") postgres (Some EmptyString)).
    reflexivity.
Defined.

(** With a connection and no cursor, [getFeatures] takes the local path and
    stops at the first [self.dbcursor.execute] with [AttributeError], no
    statement having been run. *)
Example getFeatures_without_cursor :
  init Mock.db_no_cursor (Some "localhost") (Some "osm")
  = inr (postgres, None)
  /\ PostgresClient_collection Mock.float_of_str Mock.db_execute
       Mock.db_fetchall Mock.server Mock.ZipFile dumps_plain postgres 0
       buildings JNull boundary_wkt Mock.world0
     = (Raise (AttributeError "execute"), Mock.world0).
Proof. split; vm_compute; reflexivity. Qed.

Lemma getFeatures_after_failed_connect_witness :
  @None Mock.DB = None
  /\ PostgresClient_collection Mock.float_of_str Mock.db_execute
       Mock.db_fetchall Mock.server Mock.ZipFile dumps_plain
       {| dbshell := false; session := false; url := None |} 3 buildings JNull
       boundary_wkt Mock.world0
     = (Raise (AttributeError "url"), Mock.world0).
Proof.
  apply (getFeatures_after_failed_connect Mock.float_of_str Mock.db_down
           Mock.db_execute Mock.db_fetchall Mock.server Mock.ZipFile
           dumps_plain (Some "db.example.org") "osm"
           {| dbshell := false; session := false; url := None |} None 3
           buildings JNull boundary_wkt buildings_request Mock.world0).
  - discriminate.
  - intros connect. eexists. reflexivity.
  - reflexivity.
  - vm_compute. reflexivity.
Defined.

Lemma remote_run_Ok : fst remote_run = Ok (RawGeoJSON Mock.geojson_bytes).
Proof. vm_compute. reflexivity. Qed.

Lemma getFeatures_posts_filter_document_witness :
  exists features base task_id bytes tr,
    createJson_features buildings JNull = inr features
    /\ url underpass = Some base
    /\ post Mock.server (base +:+ "/snapshot/") (dumps_plain features)
       = Some task_id
    /\ RawGeoJSON (float := Mock.float) Mock.geojson_bytes = RawGeoJSON bytes
    /\ w_trace (snd remote_run)
       = w_trace Mock.world0
         ++ [EvPost (base +:+ "/snapshot/") (dumps_plain features)]
         ++ tr ++ [EvExtract "Export.geojson" "/tmp/"]
    /\ Forall (fun e => no_execute e = true) tr.
Proof.
  pose proof remote_run_Ok as Hrun.
  destruct remote_run as [out w'] eqn:E. cbn [fst snd] in *. subst out.
  exact (getFeatures_posts_filter_document Mock.float_of_str Mock.db_execute
           Mock.db_fetchall Mock.server Mock.ZipFile dumps_plain underpass 3
           buildings JNull boundary_wkt Mock.world0 _ _ eq_refl E).
Defined.

Lemma OverpassClient_one_feature_per_way_witness :
  exists ways,
    Mock.overpass
      (overpass_ql (Py.join " "
                      (map (lat_lon_pair Mock.repr_float) Mock.ring)))
      = inr ways
    /\ length [square_feature] = length ways
    /\ Forall2 (centroid_feature Mock.polygon_centroid) ways [square_feature]
    /\ Forall2 (fun way f => f_properties f = way_tags way) ways
         [square_feature].
Proof.
  apply (OverpassClient_one_feature_per_way Mock.repr_float
           Mock.polygon_centroid Mock.overpass Mock.ring [square_feature]).
  vm_compute. reflexivity.
Defined.
